(** * The azd command builder ([cli/azd/pkg/commands/builder.go])

    A shallow embedding of [Build], [runCmdWithTelemetry] and
    [createRootContext], together with the properties the specification
    states about them.

    Go values are modelled as follows.
    - A pointer or an interface value that may be [nil] is an [option].
    - A function returning [(T, error)] returns a pair whose second
      component is an [option error]; [None] is the [nil] error.
    - Code that may panic, and whose calls to collaborators are observable,
      lives in the monad [M]: an outcome together with the log of the
      events that happened, in order.
    - Everything the code reads from outside (the process environment, the
      terminal, the collaborators' constructors) is a field of [World]. *)

From stdpp Require Import base strings list gmap.

Local Open Scope string_scope.
Set Warnings "-register-all".

(** ** Go errors *)

Inductive error : Type :=
| errorString (msg : string)
| wrapError (msg : string) (err : error).

(** [err.Error()] *)
Definition Error (e : error) : string :=
  match e with
  | errorString msg => msg
  | wrapError msg _ => msg
  end.

(** [fmt.Errorf(prefix + "%w", err)] *)
Definition Errorf_w (prefix : string) (err : error) : error :=
  wrapError (prefix +:+ Error err) err.

(** [errors.Unwrap] *)
Definition Unwrap (e : error) : option error :=
  match e with
  | errorString _ => None
  | wrapError _ err => Some err
  end.

(** ** Outcomes, events and the monad of observable effects *)

Inductive Outcome (A : Type) : Type :=
| Returned (a : A)
| Panicked (msg : string).
Arguments Returned {A} a.
Arguments Panicked {A} msg.

(** ** Streams

    [os.Stdin], [os.Stdout] and [os.Stderr] are the three process files. A
    command's reader or writer is one of them, some other stream installed
    on the command, or a wrapper made by the colorable package. *)

Inductive File : Type := Stdin | Stdout | Stderr.

Inductive Stream : Type :=
| OsFile (f : File)
| UserStream (id : nat)
| NonColorable (out : Stream)
| Colorable (f : File).

Module os.
Definition Stdin : Stream := OsFile Stdin.
Definition Stdout : Stream := OsFile Stdout.
Definition Stderr : Stream := OsFile Stderr.
End os.

#[global] Instance File_eq_dec : EqDecision File.
Proof. solve_decision. Defined.

#[global] Instance Stream_eq_dec : EqDecision Stream.
Proof. solve_decision. Defined.

(** ** Service handles *)

Record AzdContext : Type := { projectDirectory : string }.

Record GlobalCommandOptions : Type := {
  EnableDebugLogging : bool;
  EnableTelemetry : bool;
  NoPrompt : bool
}.

Record CommandRunner : Type := {
  runner_stdin : Stream;
  runner_stdout : Stream;
  runner_stderr : Stream
}.

(** [exec.NewCommandRunner(stdin, stdout, stderr)] *)
Definition NewCommandRunner (stdin stdout stderr : Stream) : CommandRunner :=
  {| runner_stdin := stdin; runner_stdout := stdout; runner_stderr := stderr |}.

Record NewAzCliArgs : Type := {
  EnableDebug : bool;
  args_EnableTelemetry : bool;
  args_CommandRunner : CommandRunner
}.

Record AzCli : Type := { azCli_args : NewAzCliArgs }.

(** [azcli.NewAzCli(args)] *)
Definition NewAzCli (args : NewAzCliArgs) : AzCli := {| azCli_args := args |}.

Record AzureCLICredential : Type := { credential_id : nat }.

Record Formatter : Type := { Kind : string }.

Record ConsoleHandles : Type := {
  handles_Stdin : Stream;
  handles_Stdout : Stream;
  handles_Stderr : Stream
}.

Record Console : Type := {
  console_prompt : bool;
  console_isTerminal : bool;
  console_handles : ConsoleHandles;
  console_formatter : option Formatter
}.

(** [input.NewConsole(prompt, isTerminal, handles, formatter)]: the console
    keeps its four arguments; the builder passes [!rootOptions.NoPrompt] as
    the first. *)
Definition NewConsole (prompt isTerminal : bool) (handles : ConsoleHandles)
    (formatter : option Formatter) : Console :=
  {| console_prompt := prompt;
     console_isTerminal := isTerminal;
     console_handles := handles;
     console_formatter := formatter |}.

Record Span : Type := { span_name : string }.

(** ** The context registry *)

Inductive Key : Type :=
| azdContextKey
| optionsKey
| installedCheckCacheKey
| commandRunnerKey
| credentialsKey
| azCliKey
| formatterKey
| writerKey
| consoleKey
| spanKey.

#[global] Instance Key_eq_dec : EqDecision Key.
Proof. solve_decision. Defined.

Inductive Service : Type :=
| SAzdContext (azdCtx : option AzdContext)
| SCommandOptions (options : GlobalCommandOptions)
| SInstalledCheckCache (cache : gmap string bool)
| SCommandRunner (runner : CommandRunner)
| SCredentials (credentials : option AzureCLICredential)
| SAzCli (azCli : AzCli)
| SFormatter (formatter : Formatter)
| SWriter (writer : Stream)
| SConsole (console : Console)
| SSpan (span : Span).

(** A [context.Context] is the chain of the values attached to it, the most
    recent first; the empty chain is [context.Background()]. *)
Definition Context : Type := list (Key * Service).

(** [context.WithValue(ctx, key, val)]: a child scope, the parent is kept. *)
Definition WithValue (ctx : Context) (key : Key) (val : Service) : Context :=
  (key, val) :: ctx.

(** [ctx.Value(key)]: the most recently attached value of that key. *)
Fixpoint Value (ctx : Context) (key : Key) : option Service :=
  match ctx with
  | [] => None
  | (k, v) :: parent => if decide (k = key) then Some v else Value parent key
  end.

(** Modelled from the spec: the registry functions [WithX] and [GetX] of the
    packages azdcontext, internal, tools, exec, identity, azcli, output and
    input are not among the sources; §4.1 gives their contract
    ([WithX] makes a child scope holding the value, [GetX] reports whether a
    value of the kind is reachable and which). *)
Module registry.
Definition WithAzdContext ctx azdCtx := WithValue ctx azdContextKey (SAzdContext azdCtx).
Definition WithCommandOptions ctx options := WithValue ctx optionsKey (SCommandOptions options).
Definition WithInstalledCheckCache ctx :=
  WithValue ctx installedCheckCacheKey (SInstalledCheckCache ∅).
Definition WithCommandRunner ctx runner := WithValue ctx commandRunnerKey (SCommandRunner runner).
Definition WithCredentials ctx credentials :=
  WithValue ctx credentialsKey (SCredentials credentials).
Definition WithAzCli ctx azCli := WithValue ctx azCliKey (SAzCli azCli).
Definition WithFormatter ctx formatter := WithValue ctx formatterKey (SFormatter formatter).
Definition WithWriter ctx writer := WithValue ctx writerKey (SWriter writer).
Definition WithConsole ctx console := WithValue ctx consoleKey (SConsole console).
Definition WithSpan ctx span := WithValue ctx spanKey (SSpan span).

Definition GetWriter (ctx : Context) : option Stream :=
  match Value ctx writerKey with
  | Some (SWriter writer) => Some writer
  | _ => None
  end.

Definition GetConsole (ctx : Context) : option Console :=
  match Value ctx consoleKey with
  | Some (SConsole console) => Some console
  | _ => None
  end.

Definition GetFormatter (ctx : Context) : option Formatter :=
  match Value ctx formatterKey with
  | Some (SFormatter formatter) => Some formatter
  | _ => None
  end.
End registry.
Export registry.

(** ** Cobra commands

    The part of [cobra.Command] the builder touches: the declared texts, the
    parent link, the context of the running invocation, the streams
    installed with [SetIn], [SetOut] and [SetErr], and the two flag sets with
    the values parsed from the command line. *)

Record Flag : Type := {
  flag_Name : string;
  flag_Shorthand : string;
  flag_Usage : string;
  flag_DefValue : string;
  flag_Value : string
}.

Definition FlagSet : Type := list Flag.

Inductive Command : Type := mkCommand {
  Use : string;
  Short : string;
  Long : string;
  Aliases : list string;
  parent : option Command;
  cmd_ctx : Context;
  inReader : option Stream;
  outWriter : option Stream;
  errWriter : option Stream;
  pflags : FlagSet;
  lflags : FlagSet
}.

Module cobra.

(** [c.Name()]: the first word of [Use]. *)
Definition Name (c : Command) : string :=
  match String.index 0 " " (Use c) with
  | Some i => String.substring 0 i (Use c)
  | None => Use c
  end.

(** [c.CommandPath()]: the names from the root down, joined by spaces. *)
Fixpoint CommandPath (c : Command) : string :=
  match c with
  | mkCommand _ _ _ _ (Some p) _ _ _ _ _ _ => CommandPath p +:+ " " +:+ Name c
  | mkCommand _ _ _ _ None _ _ _ _ _ _ => Name c
  end.

(** The chain of declared [Use] texts, root first. *)
Fixpoint UseChain (c : Command) : list string :=
  match c with
  | mkCommand u _ _ _ (Some p) _ _ _ _ _ _ => (UseChain p ++ [u])%list
  | mkCommand u _ _ _ None _ _ _ _ _ _ => [u]
  end.

(** [c.getIn(def)], [c.getOut(def)], [c.getErr(def)]: the stream installed
    on the command or on its nearest ancestor, else the default. *)
Fixpoint getIn (c : Command) (def : Stream) : Stream :=
  match c with
  | mkCommand _ _ _ _ _ _ (Some r) _ _ _ _ => r
  | mkCommand _ _ _ _ (Some p) _ None _ _ _ _ => getIn p def
  | mkCommand _ _ _ _ None _ None _ _ _ _ => def
  end.

Fixpoint getOut (c : Command) (def : Stream) : Stream :=
  match c with
  | mkCommand _ _ _ _ _ _ _ (Some w) _ _ _ => w
  | mkCommand _ _ _ _ (Some p) _ _ None _ _ _ => getOut p def
  | mkCommand _ _ _ _ None _ _ None _ _ _ => def
  end.

Fixpoint getErr (c : Command) (def : Stream) : Stream :=
  match c with
  | mkCommand _ _ _ _ _ _ _ _ (Some w) _ _ => w
  | mkCommand _ _ _ _ (Some p) _ _ _ None _ _ => getErr p def
  | mkCommand _ _ _ _ None _ _ _ None _ _ => def
  end.

Definition InOrStdin (c : Command) : Stream := getIn c os.Stdin.
Definition OutOrStdout (c : Command) : Stream := getOut c os.Stdout.
Definition ErrOrStderr (c : Command) : Stream := getErr c os.Stderr.

(** [flags.BoolP(name, shorthand, value, usage)] *)
Definition BoolP (flags : FlagSet) (name shorthand : string) (value : bool)
    (usage : string) : FlagSet :=
  let v := if value then "true" else "false" in
  (flags ++ [{| flag_Name := name; flag_Shorthand := shorthand; flag_Usage := usage;
                flag_DefValue := v; flag_Value := v |}])%list.

End cobra.
Export cobra.

(** ** Telemetry and the observable events of one invocation *)

Module codes.
Inductive Code : Type := Unset | Error | Ok.
End codes.

Inductive Event : Type :=
| EvSpanStart (ctx : Context) (name : string)
| EvSpanSetStatus (span : Span) (code : codes.Code) (description : string)
| EvSpanEnd (span : Span)
| EvActionRun (ctx : Context) (cmd : Command) (args : list string)
    (azdCtx : option AzdContext)
| EvNewNonColorable (w : Stream)
| EvNewColorableStdout.

Definition isSpanStart (e : Event) : bool :=
  match e with EvSpanStart _ _ => true | _ => false end.

Definition isActionRun (e : Event) : bool :=
  match e with EvActionRun _ _ _ _ => true | _ => false end.

Definition isNewColorableStdout (e : Event) : bool :=
  match e with EvNewColorableStdout => true | _ => false end.

(** The names of the spans started, in order. *)
Definition spanNames (log : list Event) : list string :=
  omap (fun e => match e with EvSpanStart _ name => Some name | _ => None end) log.

(** A computation: how it ends, and what it did on the way. *)
Definition M (A : Type) : Type := Outcome A * list Event.

Definition ret {A} (a : A) : M A := (Returned a, []).

Definition bind {A B} (m : M A) (f : A -> M B) : M B :=
  match m with
  | (Returned a, log) => let '(r, log') := f a in (r, (log ++ log')%list)
  | (Panicked msg, log) => (Panicked msg, log)
  end.

Definition panic {A} (msg : string) : M A := (Panicked msg, []).

Definition emit (e : Event) : M unit := (Returned tt, [e]).

(** [defer f(); body]: [f] runs when the body is left, by return or panic. *)
Definition defer {A} (deferred : list Event) (body : M A) : M A :=
  let '(r, log) := body in (r, (log ++ deferred)%list).

(** A call to code outside the builder that may itself panic. *)
Definition call {A} (r : Outcome A) : M A := (r, []).

Notation "'let*' x ':=' m 'in' k" := (bind m (fun x => k))
  (at level 10, x name, m at level 100, k at level 200).
Notation "'do' m 'then' k" := (bind m (fun _ => k))
  (at level 10, m at level 100, k at level 200).

(** [*p]: a nil pointer dereference is a run-time panic. *)
Definition deref {A} (p : option A) : M A :=
  match p with
  | Some a => ret a
  | None => panic "runtime error: invalid memory address or nil pointer dereference"
  end.

(** ** The world outside the builder

    What one invocation reads from its surroundings. The constructors of the
    collaborating packages are not part of the builder; their results are
    taken as given. *)

Record World : Type := {
  (** the process environment *)
  environ : gmap string string;
  (** [azdcontext.NewAzdContext()] *)
  NewAzdContext : option AzdContext * option error;
  (** [azidentity.NewAzureCLICredential(nil)] *)
  NewAzureCLICredential : option AzureCLICredential * option error;
  (** [output.GetCommandFormatter(cmd)] *)
  GetCommandFormatter : Command -> option Formatter * option error;
  (** [isatty.IsTerminal(f.Fd())] *)
  IsTerminal : File -> bool;
  (** the writer [colorable.NewColorableStdout()] makes on this platform *)
  ColorableStdout : Stream;
  (** [events.GetCommandEventName(cmdPath)] *)
  GetCommandEventName : string -> string
}.

(** [os.Getenv(key)]: the value, or the empty string when the variable is
    not present. *)
Definition Getenv (w : World) (key : string) : string :=
  default "" (environ w !! key).

(** [colorable.NewNonColorable(w)] *)
Definition NewNonColorable (out : Stream) : M Stream :=
  do emit (EvNewNonColorable out) then ret (NonColorable out).

(** [colorable.NewColorableStdout()] *)
Definition NewColorableStdout (w : World) : M Stream :=
  do emit EvNewColorableStdout then ret (ColorableStdout w).

(** [telemetry.GetTracer().Start(ctx, name)] *)
Definition tracer_Start (ctx : Context) (name : string) : M (Context * Span) :=
  let span := {| span_name := name |} in
  do emit (EvSpanStart ctx name) then ret (WithSpan ctx span, span).

(** [span.SetStatus(code, description)] *)
Definition SetStatus (span : Span) (code : codes.Code) (description : string) : M unit :=
  emit (EvSpanSetStatus span code description).

(** ** Actions *)

Record Action : Type := {
  Run : Context -> Command -> list string -> option AzdContext -> Outcome (option error);
  SetupFlags : FlagSet -> FlagSet -> FlagSet * FlagSet
}.

Record BuildOptions : Type := {
  opt_Long : string;
  opt_Aliases : list string;
  DisableCmdUsageEvent : bool
}.

(** [BuildOptions{}] *)
Definition zeroBuildOptions : BuildOptions :=
  {| opt_Long := ""; opt_Aliases := []; DisableCmdUsageEvent := false |}.

(** ** builder.go *)

Section Builder.

Variable w : World.

(** [createRootContext], lines 113-184. *)
Definition createRootContext (ctx : Context) (cmd : Command)
    (rootOptions : option GlobalCommandOptions)
    : M (Context * option AzdContext * option error) :=
  let '(azdCtx, err) := NewAzdContext w in
  match err with
  | Some err => ret (ctx, None, Some (Errorf_w "creating context: " err))
  | None =>
    let ctx := WithAzdContext ctx azdCtx in
    let* options := deref rootOptions in
    let ctx := WithCommandOptions ctx options in
    let ctx := WithInstalledCheckCache ctx in
    let runner := NewCommandRunner (InOrStdin cmd) (OutOrStdout cmd) (ErrOrStderr cmd) in
    let ctx := WithCommandRunner ctx runner in
    let azCliArgs :=
      {| EnableDebug := EnableDebugLogging options;
         args_EnableTelemetry := EnableTelemetry options;
         args_CommandRunner := runner |} in
    let '(credentials, err) := NewAzureCLICredential w in
    match err with
    | Some _ => panic "failed creating azure cli credential"
    | None =>
      let ctx := WithCredentials ctx credentials in
      let azCli := NewAzCli azCliArgs in
      let ctx := WithAzCli ctx azCli in
      let '(formatter, err) := GetCommandFormatter w cmd in
      match err with
      | Some err => ret (ctx, None, Some err)
      | None =>
        let ctx :=
          match formatter with
          | Some f => WithFormatter ctx f
          | None => ctx
          end in
        let writer := OutOrStdout cmd in
        let* writer :=
          if decide (Getenv w "NO_COLOR" <> "")
          then NewNonColorable writer
          else ret writer in
        let* writer :=
          if decide (writer = os.Stdout)
          then NewColorableStdout w
          else ret writer in
        let ctx := WithWriter ctx writer in
        let isTerminal :=
          bool_decide (OutOrStdout cmd = os.Stdout) &&
          bool_decide (InOrStdin cmd = os.Stdin) && IsTerminal w Stdin &&
          IsTerminal w Stdout in
        let console :=
          NewConsole (negb (NoPrompt options)) isTerminal
            {| handles_Stdin := InOrStdin cmd;
               handles_Stdout := OutOrStdout cmd;
               handles_Stderr := ErrOrStderr cmd |}
            formatter in
        let ctx := WithConsole ctx console in
        ret (ctx, azdCtx, None)
      end
    end
  end.

(** [runCmdWithTelemetry], lines 97-109. *)
Definition runCmdWithTelemetry (ctx : Context) (cmd : Command)
    (runCmd : Context -> M (option error)) : M (option error) :=
  let* started := tracer_Start ctx (GetCommandEventName w (CommandPath cmd)) in
  let '(spanCtx, span) := started in
  defer [EvSpanEnd span] (
    let* err := runCmd spanCtx in
    do (match err with
        | Some _ => SetStatus span codes.Error "UnknownError"
        | None => ret tt
        end)
    then ret err).

(** The [RunE] closure of [Build], lines 72-87. *)
Definition RunE (action : Action) (rootOptions : option GlobalCommandOptions)
    (buildOptions : BuildOptions) (cmd : Command) (args : list string)
    : M (option error) :=
  let* root := createRootContext (cmd_ctx cmd) cmd rootOptions in
  let '(ctx, azdCtx, err) := root in
  match err with
  | Some err => ret (Some err)
  | None =>
    let runCmd := fun cmdCtx : Context =>
      do emit (EvActionRun cmdCtx cmd args azdCtx)
      then call (Run action cmdCtx cmd args azdCtx) in
    if DisableCmdUsageEvent buildOptions
    then runCmd ctx
    else runCmdWithTelemetry ctx cmd runCmd
  end.

End Builder.

(** What [Build] returns: the command, and the handler cobra calls with the
    command being run and its positional arguments. *)
Record BuiltCommand : Type := {
  built_cmd : Command;
  built_RunE : World -> Command -> list string -> M (option error)
}.

(** [Build], lines 56-95. *)
Definition Build (action : Action) (rootOptions : option GlobalCommandOptions)
    (use short : string) (buildOptions : option BuildOptions) : BuiltCommand :=
  let buildOptions :=
    match buildOptions with
    | None => zeroBuildOptions
    | Some o => o
    end in
  let cmd :=
    {| Use := use; Short := short;
       Long := opt_Long buildOptions; Aliases := opt_Aliases buildOptions;
       parent := None; cmd_ctx := []; inReader := None; outWriter := None;
       errWriter := None; pflags := []; lflags := [] |} in
  let flags :=
    BoolP (lflags cmd) "help" "h" false ("Gets help for " +:+ Name cmd +:+ ".") in
  let '(persistent, flags) := SetupFlags action (pflags cmd) flags in
  {| built_cmd :=
       {| Use := Use cmd; Short := Short cmd; Long := Long cmd; Aliases := Aliases cmd;
          parent := parent cmd; cmd_ctx := cmd_ctx cmd; inReader := inReader cmd;
          outWriter := outWriter cmd; errWriter := errWriter cmd;
          pflags := persistent; lflags := flags |};
     built_RunE := fun w => RunE w action rootOptions buildOptions |}.

(** ** Sample inputs *)

Module sample.

Definition options : GlobalCommandOptions :=
  {| EnableDebugLogging := false; EnableTelemetry := true; NoPrompt := false |}.

Definition azdCtx : AzdContext := {| projectDirectory := "/home/dev/app" |}.

Definition credential : AzureCLICredential := {| credential_id := 1 |}.

Definition json : Formatter := {| Kind := "json" |}.

(** A formatter resolver in the manner of the output package: the value of
    the [output] flag selects the formatter, an unknown value is an error. *)
Definition formatterOf (cmd : Command) : option Formatter * option error :=
  match List.find (fun f => String.eqb (flag_Name f) "output") (lflags cmd) with
  | None => (None, None)
  | Some f =>
    if String.eqb (flag_Value f) "json" then (Some json, None)
    else (None, Some (errorString ("unsupported format '" +:+ flag_Value f +:+ "'")))
  end.

Definition eventName (cmdPath : string) : string := "cmd." +:+ cmdPath.

(** A healthy machine with both standard descriptors on a terminal. *)
Definition world (env : gmap string string) : World :=
  {| environ := env;
     NewAzdContext := (Some azdCtx, None);
     NewAzureCLICredential := (Some credential, None);
     GetCommandFormatter := formatterOf;
     IsTerminal := fun _ => true;
     ColorableStdout := Colorable Stdout;
     GetCommandEventName := eventName |}.

(** The same machine without a usable Azure CLI credential. *)
Definition worldNoCredential : World :=
  {| environ := ∅;
     NewAzdContext := (Some azdCtx, None);
     NewAzureCLICredential := (None, Some (errorString "az not found"));
     GetCommandFormatter := formatterOf;
     IsTerminal := fun _ => true;
     ColorableStdout := Colorable Stdout;
     GetCommandEventName := eventName |}.

(** The same machine when the working directory cannot be read. *)
Definition worldNoCwd : World :=
  {| environ := ∅;
     NewAzdContext := (None, Some (errorString "getwd: no such file or directory"));
     NewAzureCLICredential := (Some credential, None);
     GetCommandFormatter := formatterOf;
     IsTerminal := fun _ => true;
     ColorableStdout := Colorable Stdout;
     GetCommandEventName := eventName |}.

Definition deployFailed : error := errorString "deployment failed".

Definition failing : Action :=
  {| Run := fun _ _ _ _ => Returned (Some deployFailed);
     SetupFlags := fun persistent flags => (persistent, flags) |}.

Definition root : Command :=
  {| Use := "azd"; Short := "Azure Developer CLI"; Long := ""; Aliases := [];
     parent := None; cmd_ctx := []; inReader := None; outWriter := None;
     errWriter := None; pflags := []; lflags := [] |}.

(** [c] attached under [azd] with the given output stream and local flags. *)
Definition attach (c : Command) (out : option Stream) (flags : FlagSet) : Command :=
  {| Use := Use c; Short := Short c; Long := Long c; Aliases := Aliases c;
     parent := Some root; cmd_ctx := cmd_ctx c; inReader := inReader c;
     outWriter := out; errWriter := errWriter c;
     pflags := pflags c; lflags := (lflags c ++ flags)%list |}.

Definition outputFlag (value : string) : Flag :=
  {| flag_Name := "output"; flag_Shorthand := "o"; flag_Usage := "The output format";
     flag_DefValue := "none"; flag_Value := value |}.

Definition deploy (buildOptions : option BuildOptions) : BuiltCommand :=
  Build failing (Some options) "deploy [--service name]" "Deploy the application"
    buildOptions.

Definition noUsageEvent : BuildOptions :=
  {| opt_Long := "Deploys the application code to Azure.";
     opt_Aliases := ["ship"];
     DisableCmdUsageEvent := true |}.

(** [azd deploy] on the terminal. *)
Definition deployCmd : Command := attach (built_cmd (deploy None)) None [].

(** [azd deploy] built without the usage event. *)
Definition deployCmdNoEvent : Command :=
  attach (built_cmd (deploy (Some noUsageEvent))) None [].

(** [azd deploy] with its output captured in a buffer. *)
Definition deployCmdCaptured : Command :=
  attach (built_cmd (deploy None)) (Some (UserStream 7)) [].

(** [azd deploy --output yaml] *)
Definition deployCmdYaml : Command :=
  attach (built_cmd (deploy None)) None [outputFlag "yaml"].

(** [azd deploy --output json] with its output captured in a buffer. *)
Definition deployCmdJson : Command :=
  attach (built_cmd (deploy None)) (Some (UserStream 7)) [outputFlag "json"].

(** An environment whose only variable is [NO_COLOR]. *)
Definition noColor (value : string) : gmap string string := {["NO_COLOR" := value]}.

End sample.

(** The command path as a function of the chain of [Use] texts alone. *)
Definition firstWord (use : string) : string :=
  match String.index 0 " " use with
  | Some i => String.substring 0 i use
  | None => use
  end.

Definition joinPath (chain : list string) : string :=
  match chain with
  | [] => ""
  | use :: rest =>
    fold_left (fun path use => path +:+ " " +:+ firstWord use) rest (firstWord use)
  end.

(** Induction along the parent link of a command. *)
Fixpoint Command_parent_ind (P : Command -> Prop)
    (Hroot : forall u s l a x i o e pf lf, P (mkCommand u s l a None x i o e pf lf))
    (Hchild : forall u s l a p x i o e pf lf,
        P p -> P (mkCommand u s l a (Some p) x i o e pf lf))
    (c : Command) : P c :=
  match c with
  | mkCommand u s l a None x i o e pf lf => Hroot u s l a x i o e pf lf
  | mkCommand u s l a (Some p) x i o e pf lf =>
    Hchild u s l a p x i o e pf lf (Command_parent_ind P Hroot Hchild p)
  end.

(** ** Further lookups and sample inputs *)

(** Modelled from the spec: the remaining [GetX] functions of the registry
    (§4.1), which are not among the sources. *)
Module lookups.



Definition GetCommandRunner (ctx : Context) : option CommandRunner :=
  match Value ctx commandRunnerKey with
  | Some (SCommandRunner runner) => Some runner
  | _ => None
  end.


End lookups.
Export lookups.

Definition isSpanEnd (e : Event) : bool :=
  match e with EvSpanEnd _ => true | _ => false end.

Definition isSpanSetStatus (e : Event) : bool :=
  match e with EvSpanSetStatus _ _ _ => true | _ => false end.

Definition isNewNonColorable (e : Event) : bool :=
  match e with EvNewNonColorable _ => true | _ => false end.

(** How many events of a kind a log holds. *)
Definition count (kind : Event -> bool) (log : list Event) : nat :=
  length (List.filter kind log).

(** The help flag [Build] declares for a command of the given name. *)
Definition helpFlag (name : string) : Flag :=
  {| flag_Name := "help"; flag_Shorthand := "h";
     flag_Usage := "Gets help for " +:+ name +:+ ".";
     flag_DefValue := "false"; flag_Value := "false" |}.

Module sample2.

(** An action that succeeds. *)
Definition succeeding : Action :=
  {| Run := fun _ _ _ _ => Returned None;
     SetupFlags := fun persistent flags =>
       (persistent, (flags ++ [sample.outputFlag "none"])%list) |}.

(** An action that panics half way. *)
Definition panicking : Action :=
  {| Run := fun _ _ _ _ => Panicked "index out of range [3] with length 3";
     SetupFlags := fun persistent flags => (persistent, flags) |}.

(** An action that fails unless it finds a console in its context. *)
Definition needsConsole : Action :=
  {| Run := fun ctx _ _ _ =>
       match GetConsole ctx with
       | Some _ => Returned None
       | None => Returned (Some (errorString "no console"))
       end;
     SetupFlags := fun persistent flags => (persistent, flags) |}.

Definition debugOptions : GlobalCommandOptions :=
  {| EnableDebugLogging := true; EnableTelemetry := false; NoPrompt := true |}.

(** A context that already carries a formatter and a span. *)
Definition outer : Context :=
  WithFormatter (WithSpan [] {| span_name := "outer" |}) {| Kind := "table" |}.

End sample2.

(** * Properties *)

(** ** The monad *)

Lemma bind_ret_l {A B} (a : A) (f : A -> M B) : bind (ret a) f = f a.
Proof. unfold bind, ret. destruct (f a) as [r log]. reflexivity. Qed.

Lemma bind_returned {A B} (a : A) (log : list Event) (f : A -> M B) :
  bind (Returned a, log) f = ((f a).1, (log ++ (f a).2)%list).
Proof. unfold bind. destruct (f a) as [r log']. reflexivity. Qed.

Lemma bind_panicked {A B} (msg : string) (log : list Event) (f : A -> M B) :
  bind (Panicked msg, log) f = (Panicked msg, log).
Proof. reflexivity. Qed.

(** ** The registry *)

Lemma GetWriter_WithWriter ctx writer : GetWriter (WithWriter ctx writer) = Some writer.
Proof. reflexivity. Qed.

Lemma GetWriter_WithConsole ctx console :
  GetWriter (WithConsole ctx console) = GetWriter ctx.
Proof. reflexivity. Qed.

Lemma GetConsole_WithConsole ctx console :
  GetConsole (WithConsole ctx console) = Some console.
Proof. reflexivity. Qed.

(** ** Command paths *)

Lemma UseChain_nonempty c : UseChain c <> [].
Proof.
  induction c using Command_parent_ind; simpl; [discriminate |].
  destruct (UseChain c); discriminate.
Qed.

Lemma joinPath_snoc chain use :
  chain <> [] -> joinPath (chain ++ [use]) = joinPath chain +:+ " " +:+ firstWord use.
Proof.
  destruct chain as [|u rest]; [congruence |]. intros _. simpl.
  rewrite fold_left_app. reflexivity.
Qed.

Lemma CommandPath_UseChain c : CommandPath c = joinPath (UseChain c).
Proof.
  induction c using Command_parent_ind; simpl; [reflexivity |].
  rewrite joinPath_snoc by apply UseChain_nonempty.
  rewrite IHc. reflexivity.
Qed.

(** ** Context assembly *)

(** Every way [createRootContext] can end, by what the collaborators
    answered. *)
Lemma createRootContext_cases w ctx cmd rootOptions :
  let out := OutOrStdout cmd in
  let stripped := if decide (Getenv w "NO_COLOR" <> "") then NonColorable out else out in
  let writer := if decide (stripped = os.Stdout) then ColorableStdout w else stripped in
  let log :=
    ((if decide (Getenv w "NO_COLOR" <> "") then [EvNewNonColorable out] else []) ++
     (if decide (stripped = os.Stdout) then [EvNewColorableStdout] else []))%list in
  (exists e, (NewAzdContext w).2 = Some e /\
     createRootContext w ctx cmd rootOptions
       = (Returned (ctx, None, Some (Errorf_w "creating context: " e)), [])) \/
  ((NewAzdContext w).2 = None /\ rootOptions = None /\
     createRootContext w ctx cmd rootOptions
       = (Panicked "runtime error: invalid memory address or nil pointer dereference", [])) \/
  (exists options e, (NewAzdContext w).2 = None /\ rootOptions = Some options /\
     (NewAzureCLICredential w).2 = Some e /\
     createRootContext w ctx cmd rootOptions
       = (Panicked "failed creating azure cli credential", [])) \/
  (exists options e base, (NewAzdContext w).2 = None /\ rootOptions = Some options /\
     (NewAzureCLICredential w).2 = None /\ (GetCommandFormatter w cmd).2 = Some e /\
     createRootContext w ctx cmd rootOptions = (Returned (base, None, Some e), [])) \/
  (exists options base, (NewAzdContext w).2 = None /\ rootOptions = Some options /\
     (NewAzureCLICredential w).2 = None /\ (GetCommandFormatter w cmd).2 = None /\
     createRootContext w ctx cmd rootOptions
       = (Returned
            (WithConsole (WithWriter base writer)
               (NewConsole (negb (NoPrompt options))
                  (bool_decide (out = os.Stdout) &&
                   bool_decide (InOrStdin cmd = os.Stdin) && IsTerminal w Stdin &&
                   IsTerminal w Stdout)
                  {| handles_Stdin := InOrStdin cmd; handles_Stdout := out;
                     handles_Stderr := ErrOrStderr cmd |}
                  (GetCommandFormatter w cmd).1),
             (NewAzdContext w).1, None), log)).
Proof.
  intros out stripped writer log. subst log writer stripped out.
  unfold createRootContext.
  destruct (NewAzdContext w) as [a [e|]]; simpl.
  { left. exists e. split; reflexivity. }
  destruct rootOptions as [options|]; simpl.
  2: { right. left. repeat split. }
  destruct (NewAzureCLICredential w) as [c [e|]]; simpl.
  { right. right. left. exists options, e. repeat split. }
  destruct (GetCommandFormatter w cmd) as [f [e|]]; simpl.
  { right. right. right. left. eexists options, e, _. repeat split. }
  right. right. right. right.
  eexists options, _. do 4 (split; [reflexivity |]).
  destruct (decide (Getenv w "NO_COLOR" <> "")) as [Hset|Hunset]; simpl.
  - destruct (decide (NonColorable (OutOrStdout cmd) = os.Stdout)) as [Heq|_];
      [discriminate Heq |]. reflexivity.
  - destruct (decide (OutOrStdout cmd = os.Stdout)) as [Heq|Hne]; reflexivity.
Qed.

Lemma createRootContext_log w ctx cmd rootOptions :
  Forall (fun e => e = EvNewNonColorable (OutOrStdout cmd) \/ e = EvNewColorableStdout)
    (createRootContext w ctx cmd rootOptions).2.
Proof.
  destruct (createRootContext_cases w ctx cmd rootOptions)
    as [(e & _ & ->) | [(_ & _ & ->) | [(o & e & _ & _ & _ & ->)
       | [(o & e & b & _ & _ & _ & _ & ->) | (o & b & _ & _ & _ & _ & ->)]]]];
    simpl; try constructor.
  apply Forall_app; split; case_decide; auto using Forall_nil;
    apply Forall_cons; auto using Forall_nil.
Qed.

(** A successful assembly, read backwards. *)
Lemma createRootContext_success w ctx cmd rootOptions ctx' azdCtx log :
  createRootContext w ctx cmd rootOptions = (Returned (ctx', azdCtx, None), log) ->
  let out := OutOrStdout cmd in
  let stripped := if decide (Getenv w "NO_COLOR" <> "") then NonColorable out else out in
  let writer := if decide (stripped = os.Stdout) then ColorableStdout w else stripped in
  exists options base console,
    rootOptions = Some options /\
    ctx' = WithConsole (WithWriter base writer) console /\
    console_isTerminal console =
      bool_decide (out = os.Stdout) && bool_decide (InOrStdin cmd = os.Stdin) &&
      IsTerminal w Stdin && IsTerminal w Stdout /\
    log = ((if decide (Getenv w "NO_COLOR" <> "") then [EvNewNonColorable out] else []) ++
           (if decide (stripped = os.Stdout) then [EvNewColorableStdout] else []))%list.
Proof.
  intros H.
  destruct (createRootContext_cases w ctx cmd rootOptions)
    as [(e & _ & E) | [(_ & _ & E) | [(o & e & _ & _ & _ & E)
       | [(o & e & b & _ & _ & _ & _ & E) | (o & b & _ & Ho & _ & _ & E)]]]];
    rewrite E in H; try discriminate H.
  injection H as <- _ <-.
  eexists o, b, _. repeat split. assumption.
Qed.

(** When every collaborator answers without error, assembly succeeds. *)
Lemma createRootContext_total w ctx cmd options :
  (NewAzdContext w).2 = None -> (NewAzureCLICredential w).2 = None ->
  (GetCommandFormatter w cmd).2 = None ->
  exists ctx' log,
    createRootContext w ctx cmd (Some options)
      = (Returned (ctx', (NewAzdContext w).1, None), log).
Proof.
  intros Ha Hc Hf.
  destruct (createRootContext_cases w ctx cmd (Some options))
    as [(e & E' & E) | [(_ & E' & E) | [(o & e & _ & _ & E' & E)
       | [(o & e & b & _ & _ & _ & E' & E) | (o & b & _ & Ho & _ & _ & E)]]]];
    try congruence.
  rewrite E. eauto.
Qed.

(** ** The run handler *)

Lemma Build_RunE action rootOptions use short buildOptions w :
  built_RunE (Build action rootOptions use short buildOptions) w
  = RunE w action rootOptions (default zeroBuildOptions buildOptions).
Proof.
  unfold Build. destruct (SetupFlags action _ _) as [persistent flags].
  destruct buildOptions; reflexivity.
Qed.

Lemma RunE_assembly_error w action rootOptions buildOptions cmd args ctx azdCtx err log :
  createRootContext w (cmd_ctx cmd) cmd rootOptions
    = (Returned (ctx, azdCtx, Some err), log) ->
  RunE w action rootOptions buildOptions cmd args = (Returned (Some err), log).
Proof. intros H. unfold RunE. rewrite H. simpl. rewrite app_nil_r. reflexivity. Qed.

Lemma RunE_assembly_panic w action rootOptions buildOptions cmd args msg log :
  createRootContext w (cmd_ctx cmd) cmd rootOptions = (Panicked msg, log) ->
  RunE w action rootOptions buildOptions cmd args = (Panicked msg, log).
Proof. intros H. unfold RunE. rewrite H. reflexivity. Qed.

Lemma RunE_direct w action rootOptions buildOptions cmd args ctx azdCtx log :
  createRootContext w (cmd_ctx cmd) cmd rootOptions = (Returned (ctx, azdCtx, None), log) ->
  DisableCmdUsageEvent buildOptions = true ->
  RunE w action rootOptions buildOptions cmd args
  = (Run action ctx cmd args azdCtx, (log ++ [EvActionRun ctx cmd args azdCtx])%list).
Proof. intros H Hd. unfold RunE. rewrite H. simpl. rewrite Hd. reflexivity. Qed.

Lemma RunE_telemetry w action rootOptions buildOptions cmd args ctx azdCtx log :
  createRootContext w (cmd_ctx cmd) cmd rootOptions = (Returned (ctx, azdCtx, None), log) ->
  DisableCmdUsageEvent buildOptions = false ->
  let name := GetCommandEventName w (CommandPath cmd) in
  let span := {| span_name := name |} in
  let spanCtx := WithSpan ctx span in
  RunE w action rootOptions buildOptions cmd args
  = (Run action spanCtx cmd args azdCtx,
     (log ++ [EvSpanStart ctx name; EvActionRun spanCtx cmd args azdCtx] ++
      match Run action spanCtx cmd args azdCtx with
      | Returned (Some _) => [EvSpanSetStatus span codes.Error "UnknownError"]
      | _ => []
      end ++ [EvSpanEnd span])%list).
Proof.
  intros H Hd name span spanCtx. unfold RunE. rewrite H. simpl. rewrite Hd.
  unfold runCmdWithTelemetry. simpl.
  fold name. fold span. fold spanCtx.
  destruct (Run action spanCtx cmd args azdCtx) as [[e|]|msg]; reflexivity.
Qed.

(** * The claims of the specification *)

(** C1. Whatever the action and the build options, an error returned by the
    action's [Run] is the value the built command returns, the very same
    error, on the path without the telemetry wrapper and on the path with
    it. On the wrapped path the span is started, the action runs inside it,
    the span status is set to [codes.Error] and the span is ended. *)
Theorem action_error_returned_unchanged
    w action rootOptions use short buildOptions cmd args ctx azdCtx log :
  let built := Build action rootOptions use short buildOptions in
  let name := GetCommandEventName w (CommandPath cmd) in
  let span := {| span_name := name |} in
  let spanCtx := WithSpan ctx span in
  createRootContext w (cmd_ctx cmd) cmd rootOptions = (Returned (ctx, azdCtx, None), log) ->
  (forall e,
     DisableCmdUsageEvent (default zeroBuildOptions buildOptions) = true ->
     Run action ctx cmd args azdCtx = Returned (Some e) ->
     built_RunE built w cmd args
     = (Returned (Some e), (log ++ [EvActionRun ctx cmd args azdCtx])%list)) /\
  (forall e,
     DisableCmdUsageEvent (default zeroBuildOptions buildOptions) = false ->
     Run action spanCtx cmd args azdCtx = Returned (Some e) ->
     built_RunE built w cmd args
     = (Returned (Some e),
        (log ++ [EvSpanStart ctx name;
                 EvActionRun spanCtx cmd args azdCtx;
                 EvSpanSetStatus span codes.Error "UnknownError";
                 EvSpanEnd span])%list)).
Proof.
  intros built name span spanCtx Hroot. subst built. rewrite Build_RunE. split.
  - intros e Hd Hrun. rewrite (RunE_direct _ _ _ _ _ _ _ _ _ Hroot Hd), Hrun.
    reflexivity.
  - intros e Hd Hrun. rewrite (RunE_telemetry _ _ _ _ _ _ _ _ _ Hroot Hd).
    fold name span spanCtx. rewrite Hrun. reflexivity.
Qed.

Lemma action_error_returned_unchanged_witness :
  (built_RunE (sample.deploy None) (sample.world ∅) sample.deployCmd
     ["--service"; "web"]).1
  = Returned (Some sample.deployFailed) /\
  (built_RunE (sample.deploy (Some sample.noUsageEvent)) (sample.world ∅)
     sample.deployCmdNoEvent ["--service"; "web"]).1
  = Returned (Some sample.deployFailed).
Proof.
  split.
  - edestruct (action_error_returned_unchanged (sample.world ∅) sample.failing
                 (Some sample.options) "deploy [--service name]"
                 "Deploy the application" None sample.deployCmd ["--service"; "web"])
      as [_ Hwrapped]; [vm_compute; reflexivity |].
    unfold sample.deploy.
    rewrite (Hwrapped sample.deployFailed eq_refl eq_refl). reflexivity.
  - edestruct (action_error_returned_unchanged (sample.world ∅) sample.failing
                 (Some sample.options) "deploy [--service name]"
                 "Deploy the application" (Some sample.noUsageEvent)
                 sample.deployCmdNoEvent ["--service"; "web"])
      as [Hdirect _]; [vm_compute; reflexivity |].
    unfold sample.deploy.
    rewrite (Hdirect sample.deployFailed eq_refl eq_refl). reflexivity.
Defined.

(** C2. When context assembly returns an error, the built command returns
    that error and the action's [Run] is not invoked. In particular, when
    the formatter resolver rejects the selector (and the steps before it
    went through), the command returns the resolver's error: it returns, it
    does not panic. *)
Theorem assembly_error_aborts_before_action
    w action rootOptions use short buildOptions cmd args :
  let built := Build action rootOptions use short buildOptions in
  (forall ctx azdCtx err log,
     createRootContext w (cmd_ctx cmd) cmd rootOptions
       = (Returned (ctx, azdCtx, Some err), log) ->
     built_RunE built w cmd args = (Returned (Some err), log) /\
     Forall (fun e => isActionRun e = false) log) /\
  (forall options err,
     rootOptions = Some options ->
     (NewAzdContext w).2 = None ->
     (NewAzureCLICredential w).2 = None ->
     (GetCommandFormatter w cmd).2 = Some err ->
     built_RunE built w cmd args = (Returned (Some err), [])).
Proof.
  intros built. subst built. rewrite Build_RunE. split.
  - intros ctx azdCtx err log Hroot. split.
    + exact (RunE_assembly_error _ _ _ _ _ _ _ _ _ _ Hroot).
    + pose proof (createRootContext_log w (cmd_ctx cmd) cmd rootOptions) as Hlog.
      rewrite Hroot in Hlog. simpl in Hlog.
      eapply Forall_impl; [exact Hlog |].
      intros e [-> | ->]; reflexivity.
  - intros options err -> Ha Hc Hf.
    destruct (createRootContext_cases w (cmd_ctx cmd) cmd (Some options))
      as [(e & E' & E) | [(_ & E' & E) | [(o & e & _ & _ & E' & E)
         | [(o & e & b & _ & _ & _ & E' & E) | (o & b & _ & Ho & _ & E' & E)]]]];
      try congruence.
    rewrite Hf in E'. injection E' as <-.
    exact (RunE_assembly_error _ _ _ _ _ _ _ _ _ _ E).
Qed.

Lemma assembly_error_aborts_before_action_witness :
  built_RunE (sample.deploy None) (sample.world ∅) sample.deployCmdYaml []
  = (Returned (Some (errorString "unsupported format 'yaml'")), []).
Proof.
  destruct (assembly_error_aborts_before_action (sample.world ∅) sample.failing
              (Some sample.options) "deploy [--service name]" "Deploy the application"
              None sample.deployCmdYaml []) as [_ Hformat].
  exact (Hformat sample.options (errorString "unsupported format 'yaml'")
           eq_refl eq_refl eq_refl eq_refl).
Defined.

(** C3. When the Azure CLI credential cannot be constructed, context
    assembly panics with "failed creating azure cli credential", and so does
    the built command: nothing is returned. The other two fallible
    assemblers return their failure as an error: a failure of
    [NewAzdContext] is returned wrapped in "creating context: ", a failure of
    the formatter resolver is returned as it is. With root options given,
    assembly panics in no other case. *)
Theorem credential_failure_panics w action use short buildOptions ctx cmd args options :
  (forall e,
     (NewAzdContext w).2 = None ->
     (NewAzureCLICredential w).2 = Some e ->
     createRootContext w ctx cmd (Some options)
       = (Panicked "failed creating azure cli credential", []) /\
     built_RunE (Build action (Some options) use short buildOptions) w cmd args
       = (Panicked "failed creating azure cli credential", [])) /\
  (forall e,
     (NewAzdContext w).2 = Some e ->
     createRootContext w ctx cmd (Some options)
       = (Returned (ctx, None, Some (Errorf_w "creating context: " e)), [])) /\
  (forall e,
     (NewAzdContext w).2 = None ->
     (NewAzureCLICredential w).2 = None ->
     (GetCommandFormatter w cmd).2 = Some e ->
     exists ctx',
       createRootContext w ctx cmd (Some options) = (Returned (ctx', None, Some e), [])) /\
  (forall msg log,
     createRootContext w ctx cmd (Some options) = (Panicked msg, log) ->
     msg = "failed creating azure cli credential" /\
     (NewAzdContext w).2 = None /\
     exists e, (NewAzureCLICredential w).2 = Some e).
Proof.
  repeat split.
  - destruct (createRootContext_cases w ctx cmd (Some options))
      as [(e' & E' & E) | [(_ & E' & E) | [(o & e' & _ & _ & E' & E)
         | [(o & e' & b & _ & _ & E' & _ & E) | (o & b & _ & Ho & E' & _ & E)]]]];
      congruence.
  - rewrite Build_RunE. apply RunE_assembly_panic.
    destruct (createRootContext_cases w (cmd_ctx cmd) cmd (Some options))
      as [(e' & E' & E) | [(_ & E' & E) | [(o & e' & _ & _ & E' & E)
         | [(o & e' & b & _ & _ & E' & _ & E) | (o & b & _ & Ho & E' & _ & E)]]]];
      congruence.
  - intros e Ha.
    destruct (createRootContext_cases w ctx cmd (Some options))
      as [(e' & E' & E) | [(E' & _) | [(o & e' & E' & _) | [(o & e' & b & E' & _)
         | (o & b & E' & _)]]]];
      congruence.
  - intros e Ha Hc Hf.
    destruct (createRootContext_cases w ctx cmd (Some options))
      as [(e' & E' & E) | [(_ & E' & E) | [(o & e' & _ & _ & E' & E)
         | [(o & e' & b & _ & _ & _ & E' & E) | (o & b & _ & Ho & _ & E' & E)]]]];
      try congruence.
    exists b. congruence.
  - destruct (createRootContext_cases w ctx cmd (Some options))
      as [(e' & E' & E) | [(_ & E' & E) | [(o & e' & _ & _ & E' & E)
         | [(o & e' & b & _ & _ & _ & E' & E) | (o & b & _ & Ho & _ & E' & E)]]]];
      congruence.
  - destruct (createRootContext_cases w ctx cmd (Some options))
      as [(e' & E' & E) | [(_ & E' & E) | [(o & e' & Ha & _ & E' & E)
         | [(o & e' & b & _ & _ & _ & E' & E) | (o & b & _ & Ho & _ & E' & E)]]]];
      congruence.
  - destruct (createRootContext_cases w ctx cmd (Some options))
      as [(e' & E' & E) | [(_ & E' & E) | [(o & e' & Ha & _ & E' & E)
         | [(o & e' & b & _ & _ & _ & E' & E) | (o & b & _ & Ho & _ & E' & E)]]]];
      try congruence.
    eauto.
Qed.

Lemma credential_failure_panics_witness :
  built_RunE (sample.deploy None) sample.worldNoCredential sample.deployCmd []
    = (Panicked "failed creating azure cli credential", []) /\
  createRootContext sample.worldNoCwd [] sample.deployCmd (Some sample.options)
    = (Returned ([], None,
         Some (wrapError "creating context: getwd: no such file or directory"
                 (errorString "getwd: no such file or directory"))), []).
Proof.
  split.
  - destruct (credential_failure_panics sample.worldNoCredential sample.failing
                "deploy [--service name]" "Deploy the application" None []
                sample.deployCmd [] sample.options) as [Hpanic _].
    exact (proj2 (Hpanic (errorString "az not found") eq_refl eq_refl)).
  - destruct (credential_failure_panics sample.worldNoCwd sample.failing
                "deploy [--service name]" "Deploy the application" None []
                sample.deployCmd [] sample.options) as (_ & Hwrap & _).
    exact (Hwrap (errorString "getwd: no such file or directory") eq_refl).
Defined.

(** ** Spans *)

Lemma spanNames_app log log' :
  spanNames (log ++ log') = (spanNames log ++ spanNames log')%list.
Proof. apply omap_app. Qed.

Lemma spanNames_no_span log :
  Forall (fun e => isSpanStart e = false) log -> spanNames log = [].
Proof.
  induction 1 as [|e log He _ IH]; [reflexivity |].
  destruct e; try discriminate He; exact IH.
Qed.

Lemma createRootContext_no_span w ctx cmd rootOptions :
  Forall (fun e => isSpanStart e = false) (createRootContext w ctx cmd rootOptions).2.
Proof.
  eapply Forall_impl; [apply createRootContext_log |].
  intros e [-> | ->]; reflexivity.
Qed.

(** The spans one invocation starts: none, or one named after the command
    path. *)
Lemma RunE_spanNames w action rootOptions buildOptions cmd args :
  let log := (RunE w action rootOptions buildOptions cmd args).2 in
  spanNames log = [] \/ spanNames log = [GetCommandEventName w (CommandPath cmd)].
Proof.
  intros log. subst log.
  pose proof (createRootContext_no_span w (cmd_ctx cmd) cmd rootOptions) as Hroot.
  destruct (createRootContext w (cmd_ctx cmd) cmd rootOptions)
    as [[[[ctx azdCtx] [err|]]|msg] log] eqn:E; simpl in Hroot.
  - rewrite (RunE_assembly_error _ _ _ _ _ _ _ _ _ _ E). left.
    apply spanNames_no_span, Hroot.
  - destruct (DisableCmdUsageEvent buildOptions) eqn:Hd.
    + rewrite (RunE_direct _ _ _ _ _ _ _ _ _ E Hd). left. simpl.
      rewrite spanNames_app, (spanNames_no_span _ Hroot). reflexivity.
    + rewrite (RunE_telemetry _ _ _ _ _ _ _ _ _ E Hd). right. simpl.
      rewrite spanNames_app, (spanNames_no_span _ Hroot). simpl.
      destruct (Run action _ cmd args azdCtx) as [[e|]|msg]; reflexivity.
  - rewrite (RunE_assembly_panic _ _ _ _ _ _ _ _ E). left.
    apply spanNames_no_span, Hroot.
Qed.

(** C4. The name of every span an invocation starts is the event name of
    the path joined from the chain of declared [Use] texts, root first. Two
    invocations of a built command whose chains agree, whatever their
    positional arguments, flag values, streams or environment, start spans
    of the same name only. *)
Theorem span_name_depends_on_use_chain_only
    w w' action rootOptions use short buildOptions cmd cmd' args args' :
  let built := Build action rootOptions use short buildOptions in
  let name := GetCommandEventName w (joinPath (UseChain cmd)) in
  GetCommandEventName w' = GetCommandEventName w ->
  UseChain cmd' = UseChain cmd ->
  Forall (fun n => n = name) (spanNames (built_RunE built w cmd args).2) /\
  Forall (fun n => n = name) (spanNames (built_RunE built w' cmd' args').2).
Proof.
  intros built name Hname Hchain. subst built name. rewrite !Build_RunE. split.
  - destruct (RunE_spanNames w action rootOptions
                (default zeroBuildOptions buildOptions) cmd args) as [-> | ->];
      [constructor |].
    rewrite CommandPath_UseChain. repeat constructor.
  - destruct (RunE_spanNames w' action rootOptions
                (default zeroBuildOptions buildOptions) cmd' args') as [-> | ->];
      [constructor |].
    rewrite CommandPath_UseChain, Hchain, Hname. repeat constructor.
Qed.

Lemma span_name_depends_on_use_chain_only_witness :
  spanNames (built_RunE (sample.deploy None) (sample.world ∅) sample.deployCmd
               ["--service"; "web"]).2
  = ["cmd.azd deploy"] /\
  spanNames (built_RunE (sample.deploy None) (sample.world (sample.noColor "1"))
               sample.deployCmdJson ["--service"; "secret-token"]).2
  = ["cmd.azd deploy"] /\
  Forall (fun n => n = "cmd.azd deploy")
    (spanNames (built_RunE (sample.deploy None) (sample.world (sample.noColor "1"))
                  sample.deployCmdJson ["--service"; "secret-token"]).2).
Proof.
  split; [vm_compute; reflexivity |]. split; [vm_compute; reflexivity |].
  exact (proj2 (span_name_depends_on_use_chain_only
                  (sample.world ∅) (sample.world (sample.noColor "1"))
                  sample.failing (Some sample.options)
                  "deploy [--service name]" "Deploy the application" None
                  sample.deployCmd sample.deployCmdJson
                  ["--service"; "web"] ["--service"; "secret-token"]
                  eq_refl eq_refl)).
Defined.

(** C5. A command built with [DisableCmdUsageEvent] set starts no span,
    however its invocation ends; when context assembly succeeds the action
    is run directly, on the assembled context, and the command ends as the
    action does. *)
Theorem no_span_when_usage_event_disabled
    w action rootOptions use short buildOptions cmd args :
  let built := Build action rootOptions use short (Some buildOptions) in
  DisableCmdUsageEvent buildOptions = true ->
  Forall (fun e => isSpanStart e = false) (built_RunE built w cmd args).2 /\
  (forall ctx azdCtx log,
     createRootContext w (cmd_ctx cmd) cmd rootOptions
       = (Returned (ctx, azdCtx, None), log) ->
     built_RunE built w cmd args
     = (Run action ctx cmd args azdCtx, (log ++ [EvActionRun ctx cmd args azdCtx])%list)).
Proof.
  intros built Hd. subst built. rewrite Build_RunE. simpl. split.
  - pose proof (createRootContext_no_span w (cmd_ctx cmd) cmd rootOptions) as Hroot.
    destruct (createRootContext w (cmd_ctx cmd) cmd rootOptions)
      as [[[[ctx azdCtx] [err|]]|msg] log] eqn:E; simpl in Hroot.
    + rewrite (RunE_assembly_error _ _ _ _ _ _ _ _ _ _ E). exact Hroot.
    + rewrite (RunE_direct _ _ _ _ _ _ _ _ _ E Hd). simpl.
      apply Forall_app. split; [exact Hroot |]. repeat constructor.
    + rewrite (RunE_assembly_panic _ _ _ _ _ _ _ _ E). exact Hroot.
  - intros ctx azdCtx log E. exact (RunE_direct _ _ _ _ _ _ _ _ _ E Hd).
Qed.

Lemma no_span_when_usage_event_disabled_witness :
  Forall (fun e => isSpanStart e = false)
    (built_RunE (sample.deploy (Some sample.noUsageEvent)) (sample.world ∅)
       sample.deployCmdNoEvent ["--service"; "web"]).2.
Proof.
  exact (proj1 (no_span_when_usage_event_disabled (sample.world ∅) sample.failing
                  (Some sample.options) "deploy [--service name]"
                  "Deploy the application" sample.noUsageEvent sample.deployCmdNoEvent
                  ["--service"; "web"] eq_refl)).
Defined.

(** ** The writer and the console *)

Lemma Getenv_present w key v : environ w !! key = Some v -> Getenv w key = v.
Proof. intros H. unfold Getenv. rewrite H. reflexivity. Qed.

Lemma Getenv_absent w key : environ w !! key = None -> Getenv w key = "".
Proof. intros H. unfold Getenv. rewrite H. reflexivity. Qed.

(** The writer and the log of a successful assembly, by the value
    [os.Getenv] gives for [NO_COLOR]. *)
Lemma writer_of_success w ctx cmd rootOptions ctx' azdCtx log :
  createRootContext w ctx cmd rootOptions = (Returned (ctx', azdCtx, None), log) ->
  (Getenv w "NO_COLOR" <> "" ->
     GetWriter ctx' = Some (NonColorable (OutOrStdout cmd)) /\
     log = [EvNewNonColorable (OutOrStdout cmd)]) /\
  (Getenv w "NO_COLOR" = "" -> OutOrStdout cmd = os.Stdout ->
     GetWriter ctx' = Some (ColorableStdout w) /\ log = [EvNewColorableStdout]) /\
  (Getenv w "NO_COLOR" = "" -> OutOrStdout cmd <> os.Stdout ->
     GetWriter ctx' = Some (OutOrStdout cmd) /\ log = []).
Proof.
  intros H.
  destruct (createRootContext_success _ _ _ _ _ _ _ H)
    as (options & base & console & _ & -> & _ & ->).
  rewrite GetWriter_WithConsole, GetWriter_WithWriter.
  repeat split; intros; repeat case_decide; try congruence; try discriminate;
    reflexivity.
Qed.

(** C6. With [NO_COLOR] set to a non-empty value, context assembly never
    calls [colorable.NewColorableStdout], and the writer it registers is
    [colorable.NewNonColorable] of the command's output stream, also when
    that stream is [os.Stdout]. *)
Theorem NO_COLOR_selects_stripping_wrap w ctx cmd rootOptions v :
  environ w !! "NO_COLOR" = Some v ->
  v <> "" ->
  Forall (fun e => isNewColorableStdout e = false)
    (createRootContext w ctx cmd rootOptions).2 /\
  (forall ctx' azdCtx log,
     createRootContext w ctx cmd rootOptions = (Returned (ctx', azdCtx, None), log) ->
     GetWriter ctx' = Some (NonColorable (OutOrStdout cmd)) /\
     log = [EvNewNonColorable (OutOrStdout cmd)]).
Proof.
  intros Hv Hne. apply Getenv_present in Hv.
  assert (Hset : Getenv w "NO_COLOR" <> "") by congruence.
  split.
  - destruct (createRootContext_cases w ctx cmd rootOptions)
      as [(e & _ & ->) | [(_ & _ & ->) | [(o & e & _ & _ & _ & ->)
         | [(o & e & b & _ & _ & _ & _ & ->) | (o & b & _ & _ & _ & _ & ->)]]]];
      simpl; try constructor.
    repeat case_decide; try congruence; try discriminate; repeat constructor.
  - intros ctx' azdCtx log E.
    destruct (writer_of_success _ _ _ _ _ _ _ E) as [Hw _]. exact (Hw Hset).
Qed.

Lemma NO_COLOR_selects_stripping_wrap_witness :
  OutOrStdout sample.deployCmd = os.Stdout /\
  exists ctx' azdCtx,
    createRootContext (sample.world (sample.noColor "1")) [] sample.deployCmd
      (Some sample.options)
      = (Returned (ctx', azdCtx, None), [EvNewNonColorable os.Stdout]) /\
    GetWriter ctx' = Some (NonColorable os.Stdout).
Proof.
  split; [reflexivity |].
  eexists _, _. split; [vm_compute; reflexivity |].
  refine (proj1 (proj2 (NO_COLOR_selects_stripping_wrap
                   (sample.world (sample.noColor "1")) [] sample.deployCmd
                   (Some sample.options) "1" _ _) _ _ _ _)).
  - vm_compute; reflexivity.
  - discriminate.
  - vm_compute; reflexivity.
Defined.

(** C7. With [NO_COLOR] unset, the writer registered for a command whose
    output stream is [os.Stdout] is the one [colorable.NewColorableStdout]
    makes; for any other output stream it is the stream itself, and the
    colorable package is not called. *)
Theorem unset_NO_COLOR_selects_native_color_wrap
    w ctx cmd rootOptions ctx' azdCtx log :
  environ w !! "NO_COLOR" = None ->
  createRootContext w ctx cmd rootOptions = (Returned (ctx', azdCtx, None), log) ->
  (OutOrStdout cmd = os.Stdout ->
     GetWriter ctx' = Some (ColorableStdout w) /\ log = [EvNewColorableStdout]) /\
  (OutOrStdout cmd <> os.Stdout ->
     GetWriter ctx' = Some (OutOrStdout cmd) /\ log = []).
Proof.
  intros Hunset E. apply Getenv_absent in Hunset.
  destruct (writer_of_success _ _ _ _ _ _ _ E) as (_ & Hstdout & Hother).
  split; auto.
Qed.

Lemma unset_NO_COLOR_selects_native_color_wrap_witness :
  (exists ctx' azdCtx log,
     createRootContext (sample.world ∅) [] sample.deployCmd (Some sample.options)
       = (Returned (ctx', azdCtx, None), log) /\
     GetWriter ctx' = Some (Colorable Stdout)) /\
  (exists ctx' azdCtx log,
     createRootContext (sample.world ∅) [] sample.deployCmdCaptured
       (Some sample.options) = (Returned (ctx', azdCtx, None), log) /\
     GetWriter ctx' = Some (UserStream 7)).
Proof.
  split.
  - eexists _, _, _. split; [vm_compute; reflexivity |].
    refine (proj1 (proj1 (unset_NO_COLOR_selects_native_color_wrap (sample.world ∅) []
                     sample.deployCmd (Some sample.options) _ _ _ _ _) _)).
    + vm_compute; reflexivity.
    + vm_compute; reflexivity.
    + reflexivity.
  - eexists _, _, _. split; [vm_compute; reflexivity |].
    refine (proj1 (proj2 (unset_NO_COLOR_selects_native_color_wrap (sample.world ∅) []
                     sample.deployCmdCaptured (Some sample.options) _ _ _ _ _) _)).
    + vm_compute; reflexivity.
    + vm_compute; reflexivity.
    + discriminate.
Defined.

(** C8, as the code has it. A [NO_COLOR] that is present with a non-empty
    value selects the color-stripping wrap. A [NO_COLOR] that is present
    with the empty value counts as absent: the writer is the one registered
    when the variable is unset. *)
Theorem present_NO_COLOR_disables_color_unless_empty
    w ctx cmd rootOptions v ctx' azdCtx log :
  environ w !! "NO_COLOR" = Some v ->
  createRootContext w ctx cmd rootOptions = (Returned (ctx', azdCtx, None), log) ->
  (v <> "" -> GetWriter ctx' = Some (NonColorable (OutOrStdout cmd))) /\
  (v = "" ->
     GetWriter ctx'
     = Some (if decide (OutOrStdout cmd = os.Stdout)
             then ColorableStdout w else OutOrStdout cmd)).
Proof.
  intros Hv E. apply Getenv_present in Hv.
  destruct (writer_of_success _ _ _ _ _ _ _ E) as (Hset & Hstdout & Hother).
  split; intros Hcase.
  - apply Hset. congruence.
  - assert (Hempty : Getenv w "NO_COLOR" = "") by congruence.
    case_decide; [apply Hstdout | apply Hother]; assumption.
Qed.

Lemma present_NO_COLOR_disables_color_unless_empty_witness :
  exists ctx' azdCtx log,
    createRootContext (sample.world (sample.noColor "true")) [] sample.deployCmdCaptured
      (Some sample.options) = (Returned (ctx', azdCtx, None), log) /\
    GetWriter ctx' = Some (NonColorable (UserStream 7)).
Proof.
  eexists _, _, _. split; [vm_compute; reflexivity |].
  refine (proj1 (present_NO_COLOR_disables_color_unless_empty
                   (sample.world (sample.noColor "true")) [] sample.deployCmdCaptured
                   (Some sample.options) "true" _ _ _ _ _) _).
  - vm_compute; reflexivity.
  - vm_compute; reflexivity.
  - discriminate.
Defined.

(** C8, as the specification states it, fails: on a machine where
    [NO_COLOR] is present with the empty value, a command writing to
    [os.Stdout] gets the writer of [colorable.NewColorableStdout], and
    [colorable.NewNonColorable] is not called. *)
Lemma empty_NO_COLOR_does_not_disable_color :
  environ (sample.world (sample.noColor "")) !! "NO_COLOR" = Some "" /\
  exists ctx' azdCtx,
    createRootContext (sample.world (sample.noColor "")) [] sample.deployCmd
      (Some sample.options)
      = (Returned (ctx', azdCtx, None), [EvNewColorableStdout]) /\
    GetWriter ctx' = Some (Colorable Stdout) /\
    GetWriter ctx' <> Some (NonColorable (OutOrStdout sample.deployCmd)).
Proof.
  split; [vm_compute; reflexivity |].
  eexists _, _. split; [vm_compute; reflexivity |].
  split; [reflexivity | discriminate].
Qed.

(** C9. The console is constructed with [isTerminal] true exactly when the
    command's input stream is [os.Stdin], its output stream is [os.Stdout],
    and both descriptors are terminals; otherwise it is false. *)
Theorem console_isTerminal_iff w ctx cmd rootOptions ctx' azdCtx log :
  createRootContext w ctx cmd rootOptions = (Returned (ctx', azdCtx, None), log) ->
  exists console,
    GetConsole ctx' = Some console /\
    (console_isTerminal console = true <->
       InOrStdin cmd = os.Stdin /\ OutOrStdout cmd = os.Stdout /\
       IsTerminal w Stdin = true /\ IsTerminal w Stdout = true) /\
    (console_isTerminal console = false <->
       ~ (InOrStdin cmd = os.Stdin /\ OutOrStdout cmd = os.Stdout /\
          IsTerminal w Stdin = true /\ IsTerminal w Stdout = true)).
Proof.
  intros E.
  destruct (createRootContext_success _ _ _ _ _ _ _ E)
    as (options & base & console & _ & -> & Hterm & _).
  exists console. split; [apply GetConsole_WithConsole |].
  assert (Hiff : console_isTerminal console = true <->
                 InOrStdin cmd = os.Stdin /\ OutOrStdout cmd = os.Stdout /\
                 IsTerminal w Stdin = true /\ IsTerminal w Stdout = true).
  { rewrite Hterm, !andb_true_iff, !bool_decide_eq_true. tauto. }
  split; [exact Hiff |].
  rewrite <- Hiff. destruct (console_isTerminal console); split; congruence.
Qed.

Lemma console_isTerminal_iff_witness :
  (exists ctx' azdCtx log console,
     createRootContext (sample.world ∅) [] sample.deployCmd (Some sample.options)
       = (Returned (ctx', azdCtx, None), log) /\
     GetConsole ctx' = Some console /\ console_isTerminal console = true) /\
  (exists ctx' azdCtx log console,
     createRootContext (sample.world ∅) [] sample.deployCmdCaptured
       (Some sample.options) = (Returned (ctx', azdCtx, None), log) /\
     GetConsole ctx' = Some console /\ console_isTerminal console = false).
Proof.
  split.
  - edestruct (console_isTerminal_iff (sample.world ∅) [] sample.deployCmd
                 (Some sample.options))
      as (console & Hget & Hyes & _); [vm_compute; reflexivity |].
    eexists _, _, _, console. split; [reflexivity |]. split; [exact Hget |].
    apply Hyes. repeat split.
  - edestruct (console_isTerminal_iff (sample.world ∅) [] sample.deployCmdCaptured
                 (Some sample.options))
      as (console & Hget & _ & Hno); [vm_compute; reflexivity |].
    eexists _, _, _, console. split; [reflexivity |]. split; [exact Hget |].
    apply Hno. intros (_ & Hout & _). discriminate Hout.
Defined.

(** C10. [Build] with nil build options builds what it builds with
    [BuildOptions{}]: the command has an empty [Long] and no aliases, and
    its run handler goes through the telemetry wrapper, so that an
    invocation whose context assembly succeeds starts one span, runs the
    action inside it and ends it. *)
Theorem Build_nil_options action rootOptions use short :
  let built := Build action rootOptions use short None in
  built = Build action rootOptions use short (Some zeroBuildOptions) /\
  Use (built_cmd built) = use /\
  Short (built_cmd built) = short /\
  Long (built_cmd built) = "" /\
  Aliases (built_cmd built) = [] /\
  (forall w cmd args ctx azdCtx log,
     createRootContext w (cmd_ctx cmd) cmd rootOptions
       = (Returned (ctx, azdCtx, None), log) ->
     let name := GetCommandEventName w (CommandPath cmd) in
     let span := {| span_name := name |} in
     let spanCtx := WithSpan ctx span in
     built_RunE built w cmd args
     = (Run action spanCtx cmd args azdCtx,
        (log ++ [EvSpanStart ctx name; EvActionRun spanCtx cmd args azdCtx] ++
         match Run action spanCtx cmd args azdCtx with
         | Returned (Some _) => [EvSpanSetStatus span codes.Error "UnknownError"]
         | _ => []
         end ++ [EvSpanEnd span])%list)).
Proof.
  intros built. subst built. split; [reflexivity |].
  unfold Build. destruct (SetupFlags action _ _) as [persistent flags] eqn:Hflags.
  simpl. repeat split.
  intros w cmd args ctx azdCtx log E.
  exact (RunE_telemetry w action rootOptions zeroBuildOptions cmd args ctx azdCtx log
           E eq_refl).
Qed.

Lemma Build_nil_options_witness :
  Long (built_cmd (sample.deploy None)) = "" /\
  Aliases (built_cmd (sample.deploy None)) = [] /\
  spanNames (built_RunE (sample.deploy None) (sample.world ∅) sample.deployCmd []).2
  = ["cmd.azd deploy"].
Proof.
  destruct (Build_nil_options sample.failing (Some sample.options)
              "deploy [--service name]" "Deploy the application")
    as (_ & _ & _ & Hlong & Haliases & Hrun).
  split; [exact Hlong |]. split; [exact Haliases |].
  eassert (Hroot : createRootContext (sample.world ∅) (cmd_ctx sample.deployCmd)
                     sample.deployCmd (Some sample.options)
                   = (Returned (_, _, None), _))
    by (vm_compute; reflexivity).
  unfold sample.deploy.
  rewrite (Hrun (sample.world ∅) sample.deployCmd [] _ _ _ Hroot).
  vm_compute; reflexivity.
Defined.

(** * Further properties of the builder *)

(** ** Counting events *)

Lemma count_app kind log log' :
  count kind (log ++ log') = count kind log + count kind log'.
Proof. unfold count. rewrite List.filter_app, length_app. reflexivity. Qed.

Lemma count_none kind log :
  Forall (fun e => kind e = false) log -> count kind log = 0.
Proof.
  unfold count. induction 1 as [|e log He _ IH]; [reflexivity |].
  simpl. rewrite He. exact IH.
Qed.

(** Context assembly logs nothing but the calls to the colorable package. *)
Lemma createRootContext_count w ctx cmd rootOptions kind :
  kind (EvNewNonColorable (OutOrStdout cmd)) = false ->
  kind EvNewColorableStdout = false ->
  count kind (createRootContext w ctx cmd rootOptions).2 = 0.
Proof.
  intros Hstrip Hnative. apply count_none.
  eapply Forall_impl; [apply createRootContext_log |].
  intros e [-> | ->]; assumption.
Qed.

(** ** The assembled context, in full *)

Lemma createRootContext_assembled w ctx cmd rootOptions ctx' azdCtx log :
  createRootContext w ctx cmd rootOptions = (Returned (ctx', azdCtx, None), log) ->
  exists options credentials formatter writer,
    rootOptions = Some options /\
    NewAzdContext w = (azdCtx, None) /\
    NewAzureCLICredential w = (credentials, None) /\
    GetCommandFormatter w cmd = (formatter, None) /\
    let runner := NewCommandRunner (InOrStdin cmd) (OutOrStdout cmd) (ErrOrStderr cmd) in
    let azCli :=
      NewAzCli {| EnableDebug := EnableDebugLogging options;
                  args_EnableTelemetry := EnableTelemetry options;
                  args_CommandRunner := runner |} in
    let services :=
      WithAzCli
        (WithCredentials
           (WithCommandRunner
              (WithInstalledCheckCache
                 (WithCommandOptions (WithAzdContext ctx azdCtx) options))
              runner)
           credentials)
        azCli in
    let formatted :=
      match formatter with
      | Some f => WithFormatter services f
      | None => services
      end in
    let console :=
      NewConsole (negb (NoPrompt options))
        (bool_decide (OutOrStdout cmd = os.Stdout) &&
         bool_decide (InOrStdin cmd = os.Stdin) && IsTerminal w Stdin &&
         IsTerminal w Stdout)
        {| handles_Stdin := InOrStdin cmd; handles_Stdout := OutOrStdout cmd;
           handles_Stderr := ErrOrStderr cmd |}
        formatter in
    ctx' = WithConsole (WithWriter formatted writer) console.
Proof.
  unfold createRootContext. intros H.
  destruct (NewAzdContext w) as [a [e|]]; simpl in H; [discriminate H |].
  destruct rootOptions as [options|]; simpl in H; [| discriminate H].
  destruct (NewAzureCLICredential w) as [c [e|]]; simpl in H; [discriminate H |].
  destruct (GetCommandFormatter w cmd) as [f [e|]]; simpl in H; [discriminate H |].
  destruct (decide (Getenv w "NO_COLOR" <> "")) as [Hset|Hunset]; simpl in H.
  - destruct (decide (NonColorable (OutOrStdout cmd) = os.Stdout)) as [Heq|_];
      [discriminate Heq |]. simpl in H. injection H as <- <- <-.
    eexists options, c, f, _. repeat split.
  - destruct (decide (OutOrStdout cmd = os.Stdout)) as [Heq|Hne]; simpl in H;
      injection H as <- <- <-; eexists options, c, f, _; repeat split.
Qed.

(** A wrapper is never the stream it wraps. *)
Lemma NonColorable_neq out : NonColorable out <> out.
Proof. induction out; congruence. Qed.

(** ** The telemetry wrapper on the other outcomes of the action *)

(** X1. When the action panics inside the telemetry wrapper, the panic goes
    on through the built command, the span status is not set, and the
    deferred [span.End()] still runs. *)
Theorem action_panic_still_ends_span
    w action rootOptions use short buildOptions cmd args ctx azdCtx log msg :
  let name := GetCommandEventName w (CommandPath cmd) in
  let span := {| span_name := name |} in
  let spanCtx := WithSpan ctx span in
  createRootContext w (cmd_ctx cmd) cmd rootOptions = (Returned (ctx, azdCtx, None), log) ->
  DisableCmdUsageEvent (default zeroBuildOptions buildOptions) = false ->
  Run action spanCtx cmd args azdCtx = Panicked msg ->
  built_RunE (Build action rootOptions use short buildOptions) w cmd args
  = (Panicked msg,
     (log ++ [EvSpanStart ctx name; EvActionRun spanCtx cmd args azdCtx;
              EvSpanEnd span])%list).
Proof.
  intros name span spanCtx Hroot Hd Hrun. rewrite Build_RunE.
  rewrite (RunE_telemetry _ _ _ _ _ _ _ _ _ Hroot Hd).
  fold name span spanCtx. rewrite Hrun. reflexivity.
Qed.

Lemma action_panic_still_ends_span_witness :
  (built_RunE (Build sample2.panicking (Some sample.options) "deploy" "Deploy" None)
     (sample.world ∅) sample.deployCmd []).1
  = Panicked "index out of range [3] with length 3" /\
  count isSpanEnd
    (built_RunE (Build sample2.panicking (Some sample.options) "deploy" "Deploy" None)
       (sample.world ∅) sample.deployCmd []).2 = 1.
Proof.
  eassert (Hroot : createRootContext (sample.world ∅) (cmd_ctx sample.deployCmd)
                     sample.deployCmd (Some sample.options)
                   = (Returned (_, _, None), _))
    by (vm_compute; reflexivity).
  rewrite (action_panic_still_ends_span (sample.world ∅) sample2.panicking
             (Some sample.options) "deploy" "Deploy" None sample.deployCmd []
             _ _ _ "index out of range [3] with length 3" Hroot eq_refl eq_refl).
  split; vm_compute; reflexivity.
Defined.

(** X2. Inside the telemetry wrapper the span status is set exactly when the
    action returns a non-nil error: not when it returns nil, and not when
    it panics. When it is set, it is set once, to [codes.Error] with the
    fixed description "UnknownError", whatever the error. *)
Theorem span_status_set_iff_action_error
    w action rootOptions use short buildOptions cmd args ctx azdCtx log :
  let name := GetCommandEventName w (CommandPath cmd) in
  let span := {| span_name := name |} in
  let run := built_RunE (Build action rootOptions use short buildOptions) w cmd args in
  createRootContext w (cmd_ctx cmd) cmd rootOptions = (Returned (ctx, azdCtx, None), log) ->
  DisableCmdUsageEvent (default zeroBuildOptions buildOptions) = false ->
  ((exists e, Run action (WithSpan ctx span) cmd args azdCtx = Returned (Some e)) <->
   count isSpanSetStatus run.2 = 1) /\
  (count isSpanSetStatus run.2 = 0 \/ count isSpanSetStatus run.2 = 1) /\
  Forall (fun ev => isSpanSetStatus ev = true ->
                    ev = EvSpanSetStatus span codes.Error "UnknownError") run.2.
Proof.
  intros name span run Hroot Hd. subst run. rewrite Build_RunE.
  rewrite (RunE_telemetry _ _ _ _ _ _ _ _ _ Hroot Hd). fold name span. simpl.
  pose proof (createRootContext_count w (cmd_ctx cmd) cmd rootOptions isSpanSetStatus
                eq_refl eq_refl) as Hcount.
  pose proof (createRootContext_log w (cmd_ctx cmd) cmd rootOptions) as Hlog.
  rewrite Hroot in Hcount, Hlog. simpl in Hcount, Hlog.
  rewrite count_app, Hcount.
  assert (Hpre : Forall (fun ev => isSpanSetStatus ev = true ->
                   ev = EvSpanSetStatus span codes.Error "UnknownError") log).
  { eapply Forall_impl; [exact Hlog |]. intros ev [-> | ->]; discriminate. }
  destruct (Run action (WithSpan ctx span) cmd args azdCtx) as [[e|]|msg]; simpl.
  - split; [split; eauto |]. split; [right; reflexivity |].
    apply Forall_app. split; [exact Hpre |].
    repeat constructor; discriminate.
  - split; [split; [intros [e He]; discriminate He | discriminate] |].
    split; [left; reflexivity |].
    apply Forall_app. split; [exact Hpre |]. repeat constructor; discriminate.
  - split; [split; [intros [e He]; discriminate He | discriminate] |].
    split; [left; reflexivity |].
    apply Forall_app. split; [exact Hpre |]. repeat constructor; discriminate.
Qed.

Lemma span_status_set_iff_action_error_witness :
  count isSpanSetStatus
    (built_RunE (sample.deploy None) (sample.world ∅) sample.deployCmd []).2 = 1 /\
  count isSpanSetStatus
    (built_RunE (Build sample2.succeeding (Some sample.options) "deploy" "Deploy" None)
       (sample.world ∅) sample.deployCmd []).2 = 0.
Proof.
  split; [| vm_compute; reflexivity].
  eassert (Hroot : createRootContext (sample.world ∅) (cmd_ctx sample.deployCmd)
                     sample.deployCmd (Some sample.options)
                   = (Returned (_, _, None), _))
    by (vm_compute; reflexivity).
  apply (proj1 (proj1 (span_status_set_iff_action_error (sample.world ∅) sample.failing
                  (Some sample.options) "deploy [--service name]"
                  "Deploy the application" None sample.deployCmd [] _ _ _
                  Hroot eq_refl))).
  exists sample.deployFailed. reflexivity.
Defined.

(** X3. One invocation runs the action at most once: exactly once when
    context assembly returns without error, with or without the telemetry
    wrapper, and not at all when assembly returns an error or panics. The
    builder never calls the action a second time. *)
Theorem action_runs_once_iff_assembled
    w action rootOptions use short buildOptions cmd args :
  count isActionRun
    (built_RunE (Build action rootOptions use short buildOptions) w cmd args).2
  = match createRootContext w (cmd_ctx cmd) cmd rootOptions with
    | (Returned (_, _, None), _) => 1
    | _ => 0
    end.
Proof.
  rewrite Build_RunE.
  pose proof (createRootContext_count w (cmd_ctx cmd) cmd rootOptions isActionRun
                eq_refl eq_refl) as Hcount.
  destruct (createRootContext w (cmd_ctx cmd) cmd rootOptions)
    as [[[[ctx azdCtx] [err|]]|msg] log] eqn:E; simpl in Hcount.
  - rewrite (RunE_assembly_error _ _ _ _ _ _ _ _ _ _ E). exact Hcount.
  - destruct (DisableCmdUsageEvent (default zeroBuildOptions buildOptions)) eqn:Hd.
    + rewrite (RunE_direct _ _ _ _ _ _ _ _ _ E Hd). simpl.
      rewrite count_app, Hcount. reflexivity.
    + rewrite (RunE_telemetry _ _ _ _ _ _ _ _ _ E Hd). simpl.
      rewrite count_app, Hcount.
      destruct (Run action _ cmd args azdCtx) as [[e|]|msg]; reflexivity.
  - rewrite (RunE_assembly_panic _ _ _ _ _ _ _ _ E). exact Hcount.
Qed.

(** X4. On every invocation, however it ends, as many spans are ended as
    are started, and at most one is started: one when assembly succeeds and
    the usage event is not disabled, none otherwise. *)
Theorem spans_are_balanced w action rootOptions use short buildOptions cmd args :
  let log := (built_RunE (Build action rootOptions use short buildOptions) w cmd args).2 in
  count isSpanStart log = count isSpanEnd log /\
  count isSpanStart log
  = match createRootContext w (cmd_ctx cmd) cmd rootOptions with
    | (Returned (_, _, None), _) =>
      if DisableCmdUsageEvent (default zeroBuildOptions buildOptions) then 0 else 1
    | _ => 0
    end.
Proof.
  intros log. subst log. rewrite Build_RunE.
  pose proof (createRootContext_count w (cmd_ctx cmd) cmd rootOptions isSpanStart
                eq_refl eq_refl) as Hstart.
  pose proof (createRootContext_count w (cmd_ctx cmd) cmd rootOptions isSpanEnd
                eq_refl eq_refl) as Hend.
  destruct (createRootContext w (cmd_ctx cmd) cmd rootOptions)
    as [[[[ctx azdCtx] [err|]]|msg] log] eqn:E; simpl in Hstart, Hend.
  - rewrite (RunE_assembly_error _ _ _ _ _ _ _ _ _ _ E). simpl.
    rewrite Hstart, Hend. split; reflexivity.
  - destruct (DisableCmdUsageEvent (default zeroBuildOptions buildOptions)) eqn:Hd.
    + rewrite (RunE_direct _ _ _ _ _ _ _ _ _ E Hd). simpl.
      rewrite !count_app, Hstart, Hend. split; reflexivity.
    + rewrite (RunE_telemetry _ _ _ _ _ _ _ _ _ E Hd). simpl.
      rewrite !count_app, Hstart, Hend.
      destruct (Run action _ cmd args azdCtx) as [[e|]|msg]; split; reflexivity.
  - rewrite (RunE_assembly_panic _ _ _ _ _ _ _ _ E). simpl.
    rewrite Hstart, Hend. split; reflexivity.
Qed.

(** X5. For an action that does not look at the span in its context, the
    build option [DisableCmdUsageEvent] changes only the telemetry: the
    built command ends the same way, with the same returned error or the
    same panic, whichever way the option is set. *)
Theorem usage_event_option_keeps_outcome
    w action rootOptions use short buildOptions buildOptions' cmd args :
  (forall ctx span cmd args azdCtx,
     Run action (WithSpan ctx span) cmd args azdCtx = Run action ctx cmd args azdCtx) ->
  (built_RunE (Build action rootOptions use short buildOptions) w cmd args).1
  = (built_RunE (Build action rootOptions use short buildOptions') w cmd args).1.
Proof.
  intros Hspan. rewrite !Build_RunE.
  assert (Hany : forall options,
             (RunE w action rootOptions options cmd args).1
             = match createRootContext w (cmd_ctx cmd) cmd rootOptions with
               | (Returned (ctx, azdCtx, None), _) => Run action ctx cmd args azdCtx
               | (Returned (_, _, Some err), _) => Returned (Some err)
               | (Panicked msg, _) => Panicked msg
               end).
  { intros options.
    destruct (createRootContext w (cmd_ctx cmd) cmd rootOptions)
      as [[[[ctx azdCtx] [err|]]|msg] log] eqn:E.
    - rewrite (RunE_assembly_error _ _ _ _ _ _ _ _ _ _ E). reflexivity.
    - destruct (DisableCmdUsageEvent options) eqn:Hd.
      + rewrite (RunE_direct _ _ _ _ _ _ _ _ _ E Hd). reflexivity.
      + rewrite (RunE_telemetry _ _ _ _ _ _ _ _ _ E Hd). simpl. apply Hspan.
    - rewrite (RunE_assembly_panic _ _ _ _ _ _ _ _ E). reflexivity. }
  rewrite !Hany. reflexivity.
Qed.

Lemma usage_event_option_keeps_outcome_witness :
  (built_RunE (Build sample2.needsConsole (Some sample.options) "deploy" "Deploy" None)
     (sample.world ∅) sample.deployCmd []).1
  = (built_RunE (Build sample2.needsConsole (Some sample.options) "deploy" "Deploy"
                   (Some sample.noUsageEvent))
       (sample.world ∅) sample.deployCmd []).1.
Proof.
  apply (usage_event_option_keeps_outcome (sample.world ∅) sample2.needsConsole).
  reflexivity.
Defined.

(** ** What a successful assembly leaves in the context *)

(** X6. The console and the command runner are bound to the command's own
    three streams, not to the writer registered in the context: with
    [NO_COLOR] set to a non-empty value the registered writer is a wrap that
    differs from the console's and the runner's output stream. The console
    also gets [!NoPrompt] and the formatter the resolver returned. *)
Theorem console_and_runner_use_raw_streams w ctx cmd options ctx' azdCtx log :
  createRootContext w ctx cmd (Some options) = (Returned (ctx', azdCtx, None), log) ->
  exists console runner,
    GetConsole ctx' = Some console /\
    GetCommandRunner ctx' = Some runner /\
    console_handles console
    = {| handles_Stdin := InOrStdin cmd; handles_Stdout := OutOrStdout cmd;
         handles_Stderr := ErrOrStderr cmd |} /\
    runner = NewCommandRunner (InOrStdin cmd) (OutOrStdout cmd) (ErrOrStderr cmd) /\
    console_prompt console = negb (NoPrompt options) /\
    console_formatter console = (GetCommandFormatter w cmd).1 /\
    (Getenv w "NO_COLOR" <> "" ->
     GetWriter ctx' <> Some (handles_Stdout (console_handles console)) /\
     GetWriter ctx' <> Some (runner_stdout runner)).
Proof.
  intros H.
  destruct (writer_of_success _ _ _ _ _ _ _ H) as [Hstrip _].
  destruct (createRootContext_assembled _ _ _ _ _ _ _ H)
    as (o & c & f & writer & Ho & _ & _ & Hf & Hctx).
  injection Ho as <-. simpl in Hctx.
  eexists _, _. rewrite Hf.
  split; [rewrite Hctx; reflexivity |].
  split; [rewrite Hctx; destruct f; reflexivity |].
  repeat split.
  - destruct (Hstrip H0) as [-> _]. simpl. intros Heq. injection Heq as Heq.
    exact (NonColorable_neq _ Heq).
  - destruct (Hstrip H0) as [-> _]. simpl. intros Heq. injection Heq as Heq.
    exact (NonColorable_neq _ Heq).
Qed.

Lemma console_and_runner_use_raw_streams_witness :
  exists ctx' azdCtx log console,
    createRootContext (sample.world (sample.noColor "1")) [] sample.deployCmdCaptured
      (Some sample2.debugOptions) = (Returned (ctx', azdCtx, None), log) /\
    GetConsole ctx' = Some console /\
    handles_Stdout (console_handles console) = UserStream 7 /\
    console_prompt console = false /\
    GetWriter ctx' = Some (NonColorable (UserStream 7)).
Proof.
  edestruct (console_and_runner_use_raw_streams (sample.world (sample.noColor "1")) []
               sample.deployCmdCaptured sample2.debugOptions)
    as (console & runner & Hget & _ & Hhandles & _ & Hprompt & _);
    [vm_compute; reflexivity |].
  eexists _, _, _, console. split; [reflexivity |]. split; [exact Hget |].
  split; [rewrite Hhandles; reflexivity |]. split; [exact Hprompt | reflexivity].
Defined.

(** X7. A formatter is registered only when the resolver returns one. When
    it returns none, nothing is registered and a formatter lookup on the
    assembled context gives whatever the incoming context already held,
    while the console is constructed without a formatter. *)
Theorem formatter_registered_only_when_selected w ctx cmd rootOptions ctx' azdCtx log :
  createRootContext w ctx cmd rootOptions = (Returned (ctx', azdCtx, None), log) ->
  GetFormatter ctx'
  = match (GetCommandFormatter w cmd).1 with
    | Some f => Some f
    | None => GetFormatter ctx
    end /\
  exists console,
    GetConsole ctx' = Some console /\
    console_formatter console = (GetCommandFormatter w cmd).1.
Proof.
  intros H.
  destruct (createRootContext_assembled _ _ _ _ _ _ _ H)
    as (o & c & f & writer & _ & _ & _ & Hf & Hctx).
  simpl in Hctx. rewrite Hf, Hctx. simpl.
  split; [destruct f; reflexivity |].
  eexists. split; reflexivity.
Qed.

Lemma formatter_registered_only_when_selected_witness :
  (exists ctx' azdCtx log console,
     createRootContext (sample.world ∅) sample2.outer sample.deployCmd
       (Some sample.options) = (Returned (ctx', azdCtx, None), log) /\
     GetFormatter ctx' = Some {| Kind := "table" |} /\
     GetConsole ctx' = Some console /\ console_formatter console = None) /\
  (exists ctx' azdCtx log,
     createRootContext (sample.world ∅) sample2.outer sample.deployCmdJson
       (Some sample.options) = (Returned (ctx', azdCtx, None), log) /\
     GetFormatter ctx' = Some sample.json).
Proof.
  split.
  - edestruct (formatter_registered_only_when_selected (sample.world ∅) sample2.outer
                 sample.deployCmd (Some sample.options))
      as (Hfmt & console & Hget & Hnone); [vm_compute; reflexivity |].
    eexists _, _, _, console. split; [reflexivity |].
    split; [exact Hfmt |]. split; [exact Hget | exact Hnone].
  - edestruct (formatter_registered_only_when_selected (sample.world ∅) sample2.outer
                 sample.deployCmdJson (Some sample.options))
      as (Hfmt & _); [vm_compute; reflexivity |].
    eexists _, _, _. split; [reflexivity | exact Hfmt].
Defined.

(** X8. Context assembly only adds to the context it is given: on every
    path that returns, with or without an error, the incoming context is
    the tail of the returned one. On success the kinds are registered in
    this order: azd context, options, installed-check cache, command runner,
    credentials, az CLI, formatter (if one was selected), writer, console. *)
Theorem assembly_extends_context w ctx cmd rootOptions ctx' azdCtx err log :
  createRootContext w ctx cmd rootOptions = (Returned (ctx', azdCtx, err), log) ->
  exists added,
    ctx' = (added ++ ctx)%list /\
    (err = None ->
     rev (added.*1)
     = ([azdContextKey; optionsKey; installedCheckCacheKey; commandRunnerKey;
         credentialsKey; azCliKey] ++
        match (GetCommandFormatter w cmd).1 with
         | Some _ => [formatterKey]
         | None => []
         end ++
        [writerKey; consoleKey])%list).
Proof.
  intros H. destruct err as [err|].
  - unfold createRootContext in H.
    destruct (NewAzdContext w) as [a [e|]]; simpl in H.
    { injection H as <- _ _ _. exists []. split; [reflexivity | discriminate]. }
    destruct rootOptions as [options|]; simpl in H; [| discriminate H].
    destruct (NewAzureCLICredential w) as [c [e|]]; simpl in H; [discriminate H |].
    destruct (GetCommandFormatter w cmd) as [f [e|]]; simpl in H.
    { injection H as <- _ _ _. eexists [_; _; _; _; _; _].
      split; [reflexivity | discriminate]. }
    destruct (decide (Getenv w "NO_COLOR" <> "")); simpl in H;
      repeat (case_decide; simpl in H); discriminate H.
  - destruct (createRootContext_assembled _ _ _ _ _ _ _ H)
      as (o & c & f & writer & _ & _ & _ & Hf & Hctx).
    simpl in Hctx. rewrite Hf, Hctx. simpl. destruct f as [f|].
    + eexists [_; _; _; _; _; _; _; _; _]. split; reflexivity.
    + eexists [_; _; _; _; _; _; _; _]. split; reflexivity.
Qed.

Lemma assembly_extends_context_witness :
  exists ctx' azdCtx log added,
    createRootContext (sample.world ∅) sample2.outer sample.deployCmdJson
      (Some sample.options) = (Returned (ctx', azdCtx, None), log) /\
    ctx' = (added ++ sample2.outer)%list /\
    length added = 9.
Proof.
  edestruct (assembly_extends_context (sample.world ∅) sample2.outer
               sample.deployCmdJson (Some sample.options))
    as (added & Hctx & Hkeys); [vm_compute; reflexivity |].
  eexists _, _, _, added. split; [reflexivity |]. split; [exact Hctx |].
  specialize (Hkeys eq_refl).
  apply (f_equal length) in Hkeys.
  rewrite length_rev, length_fmap in Hkeys. exact Hkeys.
Defined.



(** ** Edge cases of assembly and of [Build] *)

(** X10. [Build] does not look into the root options, so building with nil
    root options succeeds; the failure shows at invocation. If
    [NewAzdContext] succeeds, the invocation panics on the nil dereference,
    before any credential is constructed and before the action runs; if
    [NewAzdContext] fails, its wrapped error is returned and the nil pointer
    is never touched. *)
Theorem nil_root_options_fail_at_invocation w action use short buildOptions cmd args :
  let built := Build action None use short buildOptions in
  ((NewAzdContext w).2 = None ->
   built_RunE built w cmd args
   = (Panicked "runtime error: invalid memory address or nil pointer dereference", [])) /\
  (forall e, (NewAzdContext w).2 = Some e ->
   built_RunE built w cmd args
   = (Returned (Some (Errorf_w "creating context: " e)), [])).
Proof.
  intros built. subst built. rewrite Build_RunE. split.
  - intros Ha. apply RunE_assembly_panic.
    unfold createRootContext. destruct (NewAzdContext w) as [a [e|]]; [discriminate Ha |].
    reflexivity.
  - intros e Ha.
    apply (RunE_assembly_error _ _ _ _ _ _ (cmd_ctx cmd) None).
    unfold createRootContext. destruct (NewAzdContext w) as [a [e'|]];
      [| discriminate Ha]. simpl in Ha. injection Ha as ->. reflexivity.
Qed.

Lemma nil_root_options_fail_at_invocation_witness :
  built_RunE (Build sample.failing None "deploy" "Deploy" None) (sample.world ∅)
    sample.deployCmd []
  = (Panicked "runtime error: invalid memory address or nil pointer dereference", []) /\
  (built_RunE (Build sample.failing None "deploy" "Deploy" None) sample.worldNoCwd
     sample.deployCmd []).1
  = Returned (Some (wrapError "creating context: getwd: no such file or directory"
                      (errorString "getwd: no such file or directory"))).
Proof.
  split.
  - exact (proj1 (nil_root_options_fail_at_invocation (sample.world ∅) sample.failing
                    "deploy" "Deploy" None sample.deployCmd []) eq_refl).
  - rewrite (proj2 (nil_root_options_fail_at_invocation sample.worldNoCwd sample.failing
                      "deploy" "Deploy" None sample.deployCmd [])
               (errorString "getwd: no such file or directory") eq_refl).
    reflexivity.
Defined.

(** X11. Context assembly wraps the output stream at most once: in no
    world and for no command does one assembly call both
    [colorable.NewNonColorable] and [colorable.NewColorableStdout], and
    neither is called when assembly ends in an error or a panic. *)
Theorem at_most_one_color_wrap w ctx cmd rootOptions :
  let root := createRootContext w ctx cmd rootOptions in
  count isNewNonColorable root.2 + count isNewColorableStdout root.2 <= 1 /\
  (match root.1 with
   | Returned (_, _, None) => True
   | _ => root.2 = []
   end).
Proof.
  intros root. subst root.
  destruct (createRootContext_cases w ctx cmd rootOptions)
    as [(e & _ & ->) | [(_ & _ & ->) | [(o & e & _ & _ & _ & ->)
       | [(o & e & b & _ & _ & _ & _ & ->) | (o & b & _ & _ & _ & _ & ->)]]]];
    simpl.
  1-4: split; [unfold count; simpl; lia | reflexivity].
  split; [| exact I].
  destruct (decide (Getenv w "NO_COLOR" <> "")) as [Hset|Hunset]; simpl.
  - destruct (decide (NonColorable (OutOrStdout cmd) = os.Stdout)) as [Heq|_];
      [discriminate Heq |]. unfold count. simpl. lia.
  - destruct (decide (OutOrStdout cmd = os.Stdout)); unfold count; simpl; lia.
Qed.

(** X12. When [NewAzdContext] fails, the built command returns an error
    that wraps the cause: its message is "creating context: " followed by
    the cause's message, and [errors.Unwrap] gives back the cause itself.
    Nothing else happens in that invocation: no span, no action run, no
    call to the colorable package. *)
Theorem context_creation_error_wraps_cause
    w action rootOptions use short buildOptions cmd args cause :
  (NewAzdContext w).2 = Some cause ->
  exists err,
    built_RunE (Build action rootOptions use short buildOptions) w cmd args
    = (Returned (Some err), []) /\
    Unwrap err = Some cause /\
    Error err = "creating context: " +:+ Error cause.
Proof.
  intros Ha. exists (Errorf_w "creating context: " cause). rewrite Build_RunE.
  split; [| split; reflexivity].
  apply (RunE_assembly_error _ _ _ _ _ _ (cmd_ctx cmd) None).
  unfold createRootContext. destruct (NewAzdContext w) as [a [e|]];
    [| discriminate Ha]. simpl in Ha. injection Ha as ->. reflexivity.
Qed.

Lemma context_creation_error_wraps_cause_witness :
  exists err,
    built_RunE (sample.deploy None) sample.worldNoCwd sample.deployCmd []
    = (Returned (Some err), []) /\
    Unwrap err = Some (errorString "getwd: no such file or directory") /\
    Error err = "creating context: getwd: no such file or directory".
Proof.
  exact (context_creation_error_wraps_cause sample.worldNoCwd sample.failing
           (Some sample.options) "deploy [--service name]" "Deploy the application"
           None sample.deployCmd [] (errorString "getwd: no such file or directory")
           eq_refl).
Defined.

(** X13. [Build] hands the action an empty persistent flag set and a local
    flag set holding exactly the help flag: name "help", shorthand "h",
    default false, usage "Gets help for N." where N is the first word of
    [use]. The built command carries the flag sets the action returns, so
    for an action that keeps the flags it is given, the built command has
    the help flag, ahead of the action's own flags. *)
Theorem Build_declares_help_flag action rootOptions use short buildOptions :
  let built := Build action rootOptions use short buildOptions in
  let given := SetupFlags action [] [helpFlag (firstWord use)] in
  pflags (built_cmd built) = given.1 /\
  lflags (built_cmd built) = given.2 /\
  ((forall persistent flags, flags `prefix_of` (SetupFlags action persistent flags).2) ->
   lflags (built_cmd built) !! 0 = Some (helpFlag (firstWord use))).
Proof.
  intros built given. subst built given.
  assert (Hgiven : forall cmd : Command,
             Use cmd = use -> pflags cmd = [] -> lflags cmd = [] ->
             SetupFlags action (pflags cmd)
               (BoolP (lflags cmd) "help" "h" false
                  ("Gets help for " +:+ Name cmd +:+ "."))
             = SetupFlags action [] [helpFlag (firstWord use)]).
  { intros cmd Huse -> ->. unfold Name. rewrite Huse. reflexivity. }
  unfold Build. cbv zeta. rewrite Hgiven by reflexivity.
  destruct (SetupFlags action [] [helpFlag (firstWord use)]) as [persistent flags] eqn:E.
  simpl. repeat split.
  intros Hkeeps. specialize (Hkeeps [] [helpFlag (firstWord use)]).
  rewrite E in Hkeeps. simpl in Hkeeps. destruct Hkeeps as [more ->]. reflexivity.
Qed.

Lemma Build_declares_help_flag_witness :
  lflags (built_cmd (Build sample2.succeeding (Some sample.options)
                       "deploy [--service name]" "Deploy the application" None))
  !! 0
  = Some {| flag_Name := "help"; flag_Shorthand := "h";
            flag_Usage := "Gets help for deploy.";
            flag_DefValue := "false"; flag_Value := "false" |}.
Proof.
  apply (proj2 (proj2 (Build_declares_help_flag sample2.succeeding (Some sample.options)
                         "deploy [--service name]" "Deploy the application" None))).
  intros persistent flags. exists [sample.outputFlag "none"]. reflexivity.
Defined.

(** X14. Context assembly succeeds exactly when the root options are not
    nil and none of the three fallible collaborators reports an error:
    [NewAzdContext], [NewAzureCLICredential] and the formatter resolver. A
    resolver that returns no formatter and no error does not make it
    fail. *)
Theorem assembly_succeeds_iff_collaborators_do w ctx cmd rootOptions :
  (exists ctx' azdCtx log,
     createRootContext w ctx cmd rootOptions = (Returned (ctx', azdCtx, None), log)) <->
  (NewAzdContext w).2 = None /\ is_Some rootOptions /\
  (NewAzureCLICredential w).2 = None /\ (GetCommandFormatter w cmd).2 = None.
Proof.
  split.
  - intros (ctx' & azdCtx & log & H).
    destruct (createRootContext_assembled _ _ _ _ _ _ _ H)
      as (o & c & f & writer & -> & -> & -> & -> & _).
    repeat split. eauto.
  - intros (Ha & [options ->] & Hc & Hf).
    destruct (createRootContext_total w ctx cmd options Ha Hc Hf) as (ctx' & log & H).
    eauto.
Qed.
